(** * FraudDetect_Z: the encrypted claim lifecycle of [App.tsx]

    A shallow embedding of the client-side coordinator found in
    [frontend/web/src/App.tsx]: [loadClaims], [createClaim], [decryptClaim]
    and [getFraudStats], together with the JavaScript primitives they rely
    on, followed by the properties of the specification that concern them.

    Asynchronous functions are embedded as programs of a small free monad
    whose nodes are the awaited calls on the contract, the encryption
    gateway and the React state setters.  One interpreter runs a program to
    completion, another one interleaves several programs at their
    suspension points. *)

From Stdlib Require Import ZArith QArith List String Ascii Bool Lia.
From Stdlib Require Import DecimalString DecimalZ.
Import ListNotations.

Local Open Scope string_scope.
Local Open Scope Z_scope.

(** ** JavaScript primitives *)

Module Js.

(** A JavaScript number as far as the statistics need it: a finite value,
    kept as a reduced rational, or one of the three non-finite results a
    division can produce.  Rounding to binary64 is not modelled. *)
Inductive num : Type :=
| Fin (q : Q)
| NaN
| PosInf
| NegInf.

Definition is_zero (q : Q) : bool := Qeq_bool q 0.

Definition is_neg (q : Q) : bool := (Qnum q <? 0)%Z.

(** The [/] operator. *)
Definition div (a b : num) : num :=
  match a, b with
  | NaN, _ | _, NaN => NaN
  | Fin x, Fin y =>
      if is_zero y then
        if is_zero x then NaN else if is_neg x then NegInf else PosInf
      else Fin (Qred (x / y))
  | Fin _, _ => Fin 0
  | PosInf, Fin y => if is_neg y then NegInf else PosInf
  | NegInf, Fin y => if is_neg y then PosInf else NegInf
  | _, _ => NaN
  end.

(** The integer nearest to [x] among the binary64 numbers, ties going to
    the even significand: what an integer becomes when it is made a
    number.  Below [2^1024] in magnitude, where binary64 is finite. *)
Definition round64 (x : Z) : Z :=
  let a := Z.abs x in
  let e := Z.log2 a in
  if e <? 53 then x
  else
    let sh := e - 52 in
    let q := Z.shiftr a sh in
    let r := a - Z.shiftl q sh in
    let half := Z.shiftl 1 (sh - 1) in
    let q' := if (half <? r) || ((r =? half) && Z.odd q) then q + 1 else q in
    Z.sgn x * Z.shiftl q' sh.

(** [Number(x)] for a [bigint] read from the contract: exact up to [2^53],
    rounded beyond.  An integer of the contract's interface has at most
    256 bits, far below the magnitude where [Number] is [Infinity]. *)
Definition Number (x : Z) : Z := round64 x.

(** [x || 0] for a number [x] that is not [NaN]. *)
Definition or_zero (x : Z) : Z := if x =? 0 then 0 else x.

(** [x || 0] for a number that may be [NaN] ([None]). *)
Definition nan_or_zero (x : option Z) : Z :=
  match x with
  | None => 0
  | Some v => or_zero v
  end.

(** Truthiness of an optional numeric field ([undefined] and [0] are
    falsy). *)
Definition truthy_num (x : option Z) : bool :=
  match x with
  | None => false
  | Some v => negb (v =? 0)
  end.

(** Truthiness of a string. *)
Definition truthy_str (s : string) : bool :=
  match s with
  | EmptyString => false
  | _ => true
  end.

(** [s.includes(t)]. *)
Fixpoint includes (s t : string) : bool :=
  if prefix t s then true
  else match s with
       | EmptyString => false
       | String _ s' => includes s' t
       end.

(** [`${n}`] for an integer. *)
Definition to_string (n : Z) : string :=
  NilEmpty.string_of_int (Z.to_int n).

(** *** [parseInt] with no radix argument *)

(** White space among the code units below 256: TAB, LF, VT, FF, CR, SP
    and NBSP. *)
Definition is_space (c : ascii) : bool :=
  let n := nat_of_ascii c in
  ((9 <=? n) && (n <=? 13) || (n =? 32) || (n =? 160))%nat.

Fixpoint trim_start (s : string) : string :=
  match s with
  | String c s' => if is_space c then trim_start s' else s
  | EmptyString => EmptyString
  end.

(** Value of a character as a digit in the given radix. *)
Definition digit_val (radix : Z) (c : ascii) : option Z :=
  let n := Z.of_nat (nat_of_ascii c) in
  let v :=
    if (48 <=? n) && (n <=? 57) then Some (n - 48)
    else if (97 <=? n) && (n <=? 122) then Some (n - 87)
    else if (65 <=? n) && (n <=? 90) then Some (n - 55)
    else None in
  match v with
  | Some d => if d <? radix then Some d else None
  | None => None
  end.

(** Reads the longest prefix of digits; [None] when there is none. *)
Fixpoint digits (radix : Z) (acc : option Z) (s : string) : option Z :=
  match s with
  | EmptyString => acc
  | String c s' =>
      match digit_val radix c with
      | None => acc
      | Some d =>
          digits radix
            (Some (match acc with None => d | Some a => a * radix + d end)) s'
      end
  end.

Definition strip_sign (s : string) : Z * string :=
  match s with
  | String "-" s' => (-1, s')
  | String "+" s' => (1, s')
  | _ => (1, s)
  end.

Definition strip_hex (s : string) : Z * string :=
  match s with
  | String "0" (String "x" s') => (16, s')
  | String "0" (String "X" s') => (16, s')
  | _ => (10, s)
  end.

(** [parseInt(s)]; [None] stands for [NaN], which is the result exactly
    when no digit can be read.  The integer read is made a number, exact
    up to [2^53] and rounded beyond; a digit string that reaches [2^1024]
    gives [Infinity], which has no place here. *)
Definition parseInt (s : string) : option Z :=
  let '(sign, s1) := strip_sign (trim_start s) in
  let '(radix, s2) := strip_hex s1 in
  option_map (fun n => sign * round64 n) (digits radix None s2).

(** *** [new Date(ms).toISOString().split('T')[0]] *)

(** Largest magnitude of a valid time value, in milliseconds. *)
Definition max_time : Z := 8640000000000000.

(** Year, month and day of a day number counted from 1970-01-01, in the
    proleptic Gregorian calendar. *)
Definition civil_from_days (days : Z) : Z * Z * Z :=
  let z := days + 719468 in
  let era := z / 146097 in
  let doe := z - era * 146097 in
  let yoe := (doe - doe / 1460 + doe / 36524 - doe / 146096) / 365 in
  let doy := doe - (365 * yoe + yoe / 4 - yoe / 100) in
  let mp := (5 * doy + 2) / 153 in
  let d := doy - (153 * mp + 2) / 5 + 1 in
  let m := if mp <? 10 then mp + 3 else mp - 9 in
  let y := yoe + era * 400 + (if m <=? 2 then 1 else 0) in
  (y, m, d).

Fixpoint zeros (n : nat) : string :=
  match n with
  | O => EmptyString
  | S n' => String "0" (zeros n')
  end.

(** Decimal rendering of a non-negative integer on at least [w] digits. *)
Definition pad (w : nat) (n : Z) : string :=
  let s := to_string n in
  zeros (w - String.length s) ++ s.

Definition iso_year (y : Z) : string :=
  if (0 <=? y) && (y <=? 9999) then pad 4 y
  else if y <? 0 then "-" ++ pad 6 (- y)
  else "+" ++ pad 6 y.

(** The date part of [toISOString()]; [None] when the time value is out of
    range and [toISOString] throws a [RangeError]. *)
Definition iso_date (ms : Z) : option string :=
  if Z.abs ms <=? max_time then
    let '(y, m, d) := civil_from_days (ms / 86400000) in
    Some (iso_year y ++ "-" ++ pad 2 m ++ "-" ++ pad 2 d)
  else None.

End Js.

(** ** Data model *)

(** Opaque byte strings handed around by the client and never inspected by
    it: ciphertexts, input proofs, handles, encoded clear values and
    decryption proofs. *)
Inductive Blob : Type :=
| Opaque (tag : string) (payload : Z).

Definition blob_eqb (a b : Blob) : bool :=
  match a, b with
  | Opaque t1 p1, Opaque t2 p2 => String.eqb t1 t2 && (p1 =? p2)
  end.

(** What [contract.getBusinessData] returns. *)
Record BusinessData : Type := mkBusinessData {
  bd_name : string;
  bd_publicValue1 : Z;
  bd_publicValue2 : Z;
  bd_description : string;
  bd_creator : string;
  bd_timestamp : Z;
  bd_decryptedValue : Z;
  bd_isVerified : bool
}.

(** [interface ClaimRecord]; [decryptedValue] is the optional field. *)
Record ClaimRecord : Type := mkClaimRecord {
  id : string;
  policyNumber : string;
  claimAmount : Z;
  claimDate : string;
  provider : string;
  status : string;
  encryptedAmount : string;
  isVerified : bool;
  decryptedValue : option Z;
  timestamp : Z;
  creator : string
}.

(** [interface FraudStats]. *)
Record FraudStats : Type := mkFraudStats {
  totalClaims : nat;
  verifiedClaims : nat;
  potentialFrauds : nat;
  totalAmount : Z;
  avgProcessingTime : Js.num
}.

Inductive Phase : Type := pending | success | error.

Module TransactionStatus.
Record t : Type := mk {
  visible : bool;
  status : Phase;
  message : string
}.
(** The value every timer callback restores. *)
Definition hidden : t := mk false pending "".
End TransactionStatus.

Module NewClaimData.
Record t : Type := mk {
  policyNumber : string;
  claimAmount : string;
  provider : string;
  claimDate : string
}.
Definition empty : t := mk "" "" "" "".
End NewClaimData.

(** A thrown value, as far as a [catch] block that reads [e.message] can
    tell: an object or a primitive whose [message] is a string or is
    absent ([mkError]); an object whose [message] is neither, and has no
    [includes] method, such as a number, [shown] being the message as a
    string and [truthy] its truthiness; [null]; [undefined]. *)
Inductive Error : Type :=
| mkError (err_message : option string)
| OddMessage (shown : string) (truthy : bool)
| ThrownNull
| ThrownUndefined.

(** A [TypeError] raised by the engine; the wording is V8's. *)
Definition TypeError (message : string) : Error := mkError (Some message).

(** What [encrypt] resolves to. *)
Record EncryptedResult : Type := mkEncryptedResult {
  encryptedData : Blob;
  proof : Blob
}.

(** What the decryption gateway produces for a list of handles. *)
Record DecryptionResult : Type := mkDecryptionResult {
  clearValues : list (Blob * Z);
  abiEncodedClearValues : Blob;
  decryptionProof : Blob
}.

(** [clearValues[handle]]; [None] is [undefined]. *)
Fixpoint clear_value (cv : list (Blob * Z)) (h : Blob) : option Z :=
  match cv with
  | [] => None
  | (h', v) :: rest => if blob_eqb h' h then Some v else clear_value rest h
  end.

(** A pending transaction. *)
Definition Tx : Type := Z.

(** The result of [decryptClaim], a [number | null]. *)
Inductive Decrypted : Type :=
| Null
| Value (v : Z)
| NotANumber.

(** [Number(clearValue)] for a value that may be [undefined]. *)
Definition Number_of_clear (v : option Z) : Decrypted :=
  match v with
  | Some z => Value (Js.Number z)
  | None => NotANumber
  end.

(** The values a render of [App] closes over. *)
Record Render : Type := mkRender {
  isConnected : bool;
  address : option string;
  contractAddress : string;
  newClaimData : NewClaimData.t
}.

(** Truthiness of [address]. *)
Definition has_address (r : Render) : bool :=
  match address r with
  | Some a => Js.truthy_str a
  | None => false
  end.

Definition address_of (r : Render) : string :=
  match address r with
  | Some a => a
  | None => ""
  end.

(** ** Programs *)

(** The awaited calls: the contract (read-only or with a signer), the
    encryption gateway and the transaction receipt. *)
Inductive Call : Type -> Type :=
| GetContractReadOnly : Call bool
| GetContractWithSigner : Call bool
| GetAllBusinessIds : Call (list string)
| GetBusinessData (businessId : string) : Call BusinessData
| GetEncryptedValue (businessId : string) : Call Blob
| Encrypt (contractAddress address : string) (value : Z) : Call EncryptedResult
| CreateBusinessData (businessId name : string) (encryptedData proof : Blob)
    (publicValue1 publicValue2 : Z) (description : string) : Call Tx
| Wait (tx : Tx) : Call unit
| RequestDecryption (handles : list Blob) (contractAddress : string)
    : Call DecryptionResult
| VerifyDecryption (businessId : string)
    (abiEncodedClearValues decryptionProof : Blob) : Call Tx.

(** The synchronous updates of the component's state. *)
Inductive Update : Type :=
| SetIsRefreshing (b : bool)
| SetClaims (l : list ClaimRecord)
| SetTransactionStatus (s : TransactionStatus.t)
| SetTimeout (s : TransactionStatus.t) (ms : Z)
| SetCreatingClaim (b : bool)
| SetShowCreateModal (b : bool)
| SetNewClaimData (d : NewClaimData.t)
| ConsoleError (msg : string).

(** An asynchronous function body.  [Await] is a suspension point whose
    continuation receives the rejection or the value; [Now] reads
    [Date.now()]. *)
Inductive Prog (A : Type) : Type :=
| Ret (a : A)
| Throw (e : Error)
| Await {T : Type} (c : Call T) (k : Error + T -> Prog A)
| Now (k : Z -> Prog A)
| Do (u : Update) (k : Prog A).

Arguments Ret {A} a.
Arguments Throw {A} e.
Arguments Await {A T} c k.
Arguments Now {A} k.
Arguments Do {A} u k.

Fixpoint bind {A B : Type} (p : Prog A) (f : A -> Prog B) : Prog B :=
  match p with
  | Ret a => f a
  | Throw e => Throw e
  | Await c k => Await c (fun r => bind (k r) f)
  | Now k => Now (fun t => bind (k t) f)
  | Do u k => Do u (bind k f)
  end.

(** [try { p } catch (e) { h e }]. *)
Fixpoint try_catch {A : Type} (p : Prog A) (h : Error -> Prog A) : Prog A :=
  match p with
  | Ret a => Ret a
  | Throw e => h e
  | Await c k => Await c (fun r => try_catch (k r) h)
  | Now k => Now (fun t => try_catch (k t) h)
  | Do u k => Do u (try_catch k h)
  end.

Declare Scope prog_scope.
Delimit Scope prog_scope with prog.

Notation "x <- p ;; q" := (bind p (fun x => q))
  (at level 61, p at next level, right associativity) : prog_scope.
Notation "p ;; q" := (bind p (fun _ => q))
  (at level 61, right associativity) : prog_scope.

Local Open Scope prog_scope.

(** [try { p } finally { f }], for an [f] that does not throw. *)
Definition finally {A : Type} (p : Prog A) (f : Prog unit) : Prog A :=
  a <- try_catch p (fun e => f ;; Throw e) ;; f ;; Ret a.

(** [await c]. *)
Definition await {T : Type} (c : Call T) : Prog T :=
  Await c (fun r => match r with inl e => Throw e | inr v => Ret v end).

Definition set (u : Update) : Prog unit := Do u (Ret tt).

Definition now : Prog Z := Now (fun t => Ret t).

Definition show (ph : Phase) (msg : string) : Update :=
  SetTransactionStatus (TransactionStatus.mk true ph msg).

(** [setTimeout(() => setTransactionStatus({visible: false, ...}), ms)]. *)
Definition hide_after (ms : Z) : Update :=
  SetTimeout TransactionStatus.hidden ms.

(** ** The coordinator of [App.tsx] *)

(** The object pushed for one business id in the loop of [loadClaims];
    [toISOString] throws when the timestamp is not a valid date. *)
Definition claim_of (businessId : string) (businessData : BusinessData)
  : Prog ClaimRecord :=
  match Js.iso_date (Js.Number (bd_timestamp businessData) * 1000) with
  | None => Throw (mkError (Some "Invalid time value"))
  | Some date =>
      Ret {| id := businessId;
             policyNumber := bd_name businessData;
             claimAmount :=
               Js.or_zero (Js.Number (bd_publicValue1 businessData));
             claimDate := date;
             provider := bd_description businessData;
             status :=
               if bd_isVerified businessData then "Verified" else "Pending";
             encryptedAmount := businessId;
             isVerified := bd_isVerified businessData;
             decryptedValue :=
               Some (Js.or_zero (Js.Number (bd_decryptedValue businessData)));
             timestamp := Js.Number (bd_timestamp businessData);
             creator := bd_creator businessData |}
  end.

(** The [for ... of businessIds] loop, with its inner [try]/[catch]. *)
Fixpoint load_each (businessIds : list string) (claimsList : list ClaimRecord)
  : Prog (list ClaimRecord) :=
  match businessIds with
  | [] => Ret claimsList
  | businessId :: rest =>
      claimsList' <-
        try_catch
          (businessData <- await (GetBusinessData businessId) ;;
           c <- claim_of businessId businessData ;;
           Ret (claimsList ++ [c])%list)
          (fun _ =>
             set (ConsoleError "Error loading claim data:") ;;
             Ret claimsList) ;;
      load_each rest claimsList'
  end.

Definition loadClaims (r : Render) : Prog unit :=
  if negb (isConnected r) then Ret tt
  else
    set (SetIsRefreshing true) ;;
    finally
      (try_catch
         (contract <- await GetContractReadOnly ;;
          if negb contract then Ret tt
          else
            businessIds <- await GetAllBusinessIds ;;
            claimsList <- load_each businessIds [] ;;
            set (SetClaims claimsList))
         (fun _ =>
            set (show error "Failed to load claims") ;;
            set (hide_after 3000)))
      (set (SetIsRefreshing false)).

(** The identifier given to a new claim. *)
Definition newBusinessId (t : Z) : string := "claim-" ++ Js.to_string t.

(** The [TypeError] raised by reading [e.message] when [e] is [null] or
    [undefined]. *)
Definition cannot_read_message (e : string) : Error :=
  TypeError ("Cannot read properties of " ++ e ++ " (reading 'message')").

(** [e.message?.includes(s)] as a condition: reading [message] throws on
    [null] and [undefined], calling [includes] throws on a message that
    has no such method. *)
Definition message_includes (e : Error) (s : string) : Prog bool :=
  match e with
  | mkError (Some m) => Ret (Js.includes m s)
  | mkError None => Ret false
  | OddMessage _ _ => Throw (TypeError "e.message?.includes is not a function")
  | ThrownNull => Throw (cannot_read_message "null")
  | ThrownUndefined => Throw (cannot_read_message "undefined")
  end.

(** [m || "Unknown error"] for a message that is a string or absent. *)
Definition shown_message (m : option string) : string :=
  match m with
  | Some m => if Js.truthy_str m then m else "Unknown error"
  | None => "Unknown error"
  end.

(** [e.message || "Unknown error"]. *)
Definition message_or_unknown (e : Error) : Prog string :=
  match e with
  | mkError m => Ret (shown_message m)
  | OddMessage shown truthy => Ret (if truthy then shown else "Unknown error")
  | ThrownNull => Throw (cannot_read_message "null")
  | ThrownUndefined => Throw (cannot_read_message "undefined")
  end.

Definition createClaim (r : Render) : Prog unit :=
  if negb (isConnected r) || negb (has_address r) then
    set (show error "Please connect wallet first") ;;
    set (hide_after 3000)
  else
    set (SetCreatingClaim true) ;;
    set (show pending "Creating encrypted claim record...") ;;
    finally
      (try_catch
         (contract <- await GetContractWithSigner ;;
          if negb contract then
            Throw (mkError (Some "Failed to get contract with signer"))
          else
            let claimAmount :=
              Js.nan_or_zero
                (Js.parseInt (NewClaimData.claimAmount (newClaimData r))) in
            t <- now ;;
            let businessId := newBusinessId t in
            encryptedResult <-
              await (Encrypt (contractAddress r) (address_of r) claimAmount) ;;
            tx <- await (CreateBusinessData
                           businessId
                           (NewClaimData.policyNumber (newClaimData r))
                           (encryptedData encryptedResult)
                           (proof encryptedResult)
                           claimAmount
                           0
                           (NewClaimData.provider (newClaimData r))) ;;
            set (show pending "Waiting for transaction confirmation...") ;;
            await (Wait tx) ;;
            set (show success "Claim record created successfully!") ;;
            set (hide_after 2000) ;;
            loadClaims r ;;
            set (SetShowCreateModal false) ;;
            set (SetNewClaimData NewClaimData.empty))
         (fun e =>
            rejected <- message_includes e "user rejected transaction" ;;
            errorMessage <-
              (if rejected then Ret "Transaction rejected by user"
               else
                 m <- message_or_unknown e ;;
                 Ret ("Submission failed: " ++ m)) ;;
            set (show error errorMessage) ;;
            set (hide_after 3000)))
      (set (SetCreatingClaim false)).

(** Modelled from the spec: [verifyDecryption] of the [useDecrypt] hook,
    whose source is not part of the files at hand.  Following the interface
    [requestDecryptionProof(handles, destinationContext, onSubmit)], the
    adapter obtains the clear values and their proof from the gateway, hands
    them to the callback, which submits them to the ledger, awaits the
    finality of that transaction and resolves to the clear values. *)
Definition verifyDecryption (handles : list Blob) (contractAddress : string)
  (onSubmit : Blob -> Blob -> Prog Tx) : Prog DecryptionResult :=
  result <- await (RequestDecryption handles contractAddress) ;;
  tx <- onSubmit (abiEncodedClearValues result) (decryptionProof result) ;;
  await (Wait tx) ;;
  Ret result.

Definition decryptClaim (r : Render) (businessId : string) : Prog Decrypted :=
  if negb (isConnected r) || negb (has_address r) then
    set (show error "Please connect wallet first") ;;
    set (hide_after 3000) ;;
    Ret Null
  else
    try_catch
      (contractRead <- await GetContractReadOnly ;;
       if negb contractRead then Ret Null
       else
         businessData <- await (GetBusinessData businessId) ;;
         if bd_isVerified businessData then
           let storedValue :=
             Js.or_zero (Js.Number (bd_decryptedValue businessData)) in
           set (show success "Data already verified on-chain") ;;
           set (hide_after 2000) ;;
           Ret (Value storedValue)
         else
           contractWrite <- await GetContractWithSigner ;;
           if negb contractWrite then Ret Null
           else
             encryptedValueHandle <- await (GetEncryptedValue businessId) ;;
             result <-
               verifyDecryption [encryptedValueHandle] (contractAddress r)
                 (fun abiEncodedClearValues decryptionProof =>
                    await (VerifyDecryption businessId abiEncodedClearValues
                             decryptionProof)) ;;
             set (show pending "Verifying decryption on-chain...") ;;
             let clearValue :=
               clear_value (clearValues result) encryptedValueHandle in
             loadClaims r ;;
             set (show success "Claim amount decrypted and verified!") ;;
             set (hide_after 2000) ;;
             Ret (Number_of_clear clearValue))
      (fun e =>
         already <- message_includes e "Data already verified" ;;
         if already then
           set (show success "Data is already verified on-chain") ;;
           set (hide_after 2000) ;;
           loadClaims r ;;
           Ret Null
         else
           m <- message_or_unknown e ;;
           set (show error ("Decryption failed: " ++ m)) ;;
           set (hide_after 3000) ;;
           Ret Null).

(** [getFraudStats]; [clock i] is the reading of [Date.now()], in
    milliseconds, taken by the reducer at the claim of index [i]. *)
Definition is_potential_fraud (c : ClaimRecord) : bool :=
  isVerified c && Js.truthy_num (decryptedValue c)
  && match decryptedValue c with
     | Some v => 10000 <? v
     | None => false
     end.

Fixpoint sum_ages (clock : nat -> Z) (i : nat) (claims : list ClaimRecord)
  (sum : Q) : Q :=
  match claims with
  | [] => sum
  | c :: rest =>
      sum_ages clock (S i) rest
        (sum + (inject_Z (clock i) / 1000 - inject_Z (timestamp c)))%Q
  end.

(** The counters are lengths.  [totalAmount] adds integer numbers, each
    sum being rounded as a binary64 addition rounds it.  The ages and
    their mean are kept as exact rationals: the rounding of these
    quotients is left out. *)
Definition getFraudStats (clock : nat -> Z) (claims : list ClaimRecord)
  : FraudStats :=
  let totalClaims := List.length claims in
  let verifiedClaims := List.length (filter isVerified claims) in
  let potentialFrauds := List.length (filter is_potential_fraud claims) in
  let totalAmount :=
    fold_left (fun sum c => Js.round64 (sum + claimAmount c)) claims 0 in
  let avgProcessingTime :=
    if (0 <? List.length claims)%nat then
      Js.div (Js.Fin (sum_ages clock 0 claims 0))
             (Js.Fin (inject_Z (Z.of_nat (List.length claims))))
    else Js.Fin 0 in
  {| totalClaims := totalClaims;
     verifiedClaims := verifiedClaims;
     potentialFrauds := potentialFrauds;
     totalAmount := totalAmount;
     avgProcessingTime := Js.div avgProcessingTime (Js.Fin 3600) |}.

(** ** Running programs *)

(** The [useState] cells of [App] that the coordinator writes, the timers
    it has armed and the console. *)
Record UiState : Type := mkUiState {
  claims : list ClaimRecord;
  isRefreshing : bool;
  creatingClaim : bool;
  showCreateModal : bool;
  transactionStatus : TransactionStatus.t;
  formData : NewClaimData.t;
  timers : list (TransactionStatus.t * Z);
  console : list string
}.

Definition initialUi : UiState :=
  {| claims := [];
     isRefreshing := false;
     creatingClaim := false;
     showCreateModal := false;
     transactionStatus := TransactionStatus.hidden;
     formData := NewClaimData.empty;
     timers := [];
     console := [] |}.

Definition update (u : Update) (s : UiState) : UiState :=
  match u with
  | SetIsRefreshing b =>
      mkUiState (claims s) b (creatingClaim s) (showCreateModal s)
        (transactionStatus s) (formData s) (timers s) (console s)
  | SetClaims l =>
      mkUiState l (isRefreshing s) (creatingClaim s) (showCreateModal s)
        (transactionStatus s) (formData s) (timers s) (console s)
  | SetTransactionStatus st =>
      mkUiState (claims s) (isRefreshing s) (creatingClaim s)
        (showCreateModal s) st (formData s) (timers s) (console s)
  | SetTimeout st ms =>
      mkUiState (claims s) (isRefreshing s) (creatingClaim s)
        (showCreateModal s) (transactionStatus s) (formData s)
        (timers s ++ [(st, ms)]) (console s)
  | SetCreatingClaim b =>
      mkUiState (claims s) (isRefreshing s) b (showCreateModal s)
        (transactionStatus s) (formData s) (timers s) (console s)
  | SetShowCreateModal b =>
      mkUiState (claims s) (isRefreshing s) (creatingClaim s) b
        (transactionStatus s) (formData s) (timers s) (console s)
  | SetNewClaimData d =>
      mkUiState (claims s) (isRefreshing s) (creatingClaim s)
        (showCreateModal s) (transactionStatus s) d (timers s) (console s)
  | ConsoleError msg =>
      mkUiState (claims s) (isRefreshing s) (creatingClaim s)
        (showCreateModal s) (transactionStatus s) (formData s) (timers s)
        (console s ++ [msg])
  end.

(** One entry of the trace: a call that was issued. *)
Inductive Event : Type :=
| Called {T : Type} (c : Call T).

(** A transaction sent to the ledger. *)
Definition is_write (e : Event) : bool :=
  match e with
  | Called c =>
      match c with
      | CreateBusinessData _ _ _ _ _ _ _ => true
      | VerifyDecryption _ _ _ => true
      | _ => false
      end
  end.

(** A step of the decryption protocol: handle fetch, gateway request or
    proof submission. *)
Definition is_protocol (e : Event) : bool :=
  match e with
  | Called c =>
      match c with
      | GetEncryptedValue _ => true
      | RequestDecryption _ _ => true
      | VerifyDecryption _ _ _ => true
      | _ => false
      end
  end.

(** A verification submitted for the given claim. *)
Definition is_verification_of (businessId : string) (e : Event) : bool :=
  match e with
  | Called c =>
      match c with
      | VerifyDecryption b _ _ => String.eqb b businessId
      | _ => false
      end
  end.

(** The identifiers carried by the claim submissions of a trace. *)
Fixpoint submitted_ids (tr : list Event) : list string :=
  match tr with
  | [] => []
  | Called c :: rest =>
      match c with
      | CreateBusinessData b _ _ _ _ _ _ => b :: submitted_ids rest
      | _ => submitted_ids rest
      end
  end.

Section Run.

(** The outside world: its state, how it answers a call and what its
    clock shows. *)
Context {S : Type}.
Variable handle : forall T : Type, Call T -> S -> (Error + T) * S.
Variable clock : S -> Z.

Record World : Type := mkWorld {
  ext : S;
  ui : UiState;
  trace : list Event
}.

(** Runs a program to completion, each call being answered at once. *)
Fixpoint run {A : Type} (p : Prog A) (w : World) : (Error + A) * World :=
  match p with
  | Ret a => (inr a, w)
  | Throw e => (inl e, w)
  | Await c k =>
      let '(r, s) := handle _ c (ext w) in
      run (k r) (mkWorld s (ui w) (trace w ++ [Called c]))
  | Now k => run (k (clock (ext w))) w
  | Do u k => run k (mkWorld (ext w) (update u (ui w)) (trace w))
  end.

(** Runs the synchronous code up to the next suspension point. *)
Fixpoint advance {A : Type} (p : Prog A) (w : World) : Prog A * World :=
  match p with
  | Now k => advance (k (clock (ext w))) w
  | Do u k => advance k (mkWorld (ext w) (update u (ui w)) (trace w))
  | _ => (p, w)
  end.

(** Resumes a task: its pending call is answered and the task runs up
    to its next suspension point. *)
Definition step {A : Type} (p : Prog A) (w : World) : Prog A * World :=
  match p with
  | Await c k =>
      let '(r, s) := handle _ c (ext w) in
      advance (k r) (mkWorld s (ui w) (trace w ++ [Called c]))
  | _ => advance p w
  end.

Fixpoint replace {A : Type} (i : nat) (x : A) (l : list A) : list A :=
  match l, i with
  | [], _ => []
  | _ :: t, O => x :: t
  | h :: t, Datatypes.S j => h :: replace j x t
  end.

(** Runs a pool of tasks, resuming at each turn the task the schedule
    names. *)
Fixpoint interleave {A : Type} (schedule : list nat) (pool : list (Prog A))
  (w : World) : list (Prog A) * World :=
  match schedule with
  | [] => (pool, w)
  | i :: rest =>
      match nth_error pool i with
      | None => interleave rest pool w
      | Some p =>
          let '(p', w') := step p w in
          interleave rest (replace i p' pool) w'
      end
  end.

End Run.

Arguments mkWorld {S} ext ui trace.
Arguments ext {S} w.
Arguments ui {S} w.
Arguments trace {S} w.

(** ** The form, the list filter and the detail modal *)

Module JsString.

(** [c.toLowerCase()] on the code units below 256: the letters A to Z and
    the capital letters of the Latin-1 supplement. *)
Definition lower_char (c : ascii) : ascii :=
  let n := nat_of_ascii c in
  if ((65 <=? n) && (n <=? 90)
      || (192 <=? n) && (n <=? 222) && negb (n =? 215))%nat
  then ascii_of_nat (n + 32)
  else c.

(** [s.toLowerCase()]. *)
Fixpoint toLowerCase (s : string) : string :=
  match s with
  | EmptyString => EmptyString
  | String c s' => String (lower_char c) (toLowerCase s')
  end.

(** The class [\d] of a regular expression. *)
Definition is_digit (c : ascii) : bool :=
  let n := nat_of_ascii c in
  ((48 <=? n) && (n <=? 57))%nat.

(** [value.replace(/[^\d]/g, '')]. *)
Fixpoint strip_non_digits (value : string) : string :=
  match value with
  | EmptyString => EmptyString
  | String c rest =>
      if is_digit c then String c (strip_non_digits rest)
      else strip_non_digits rest
  end.

End JsString.

(** [{ ...claimData, [name]: value }] for the inputs of the form; a name
    that is none of the four fields leaves them as they are. *)
Definition with_field (claimData : NewClaimData.t) (name value : string)
  : NewClaimData.t :=
  if String.eqb name "policyNumber" then
    NewClaimData.mk value (NewClaimData.claimAmount claimData)
      (NewClaimData.provider claimData) (NewClaimData.claimDate claimData)
  else if String.eqb name "claimAmount" then
    NewClaimData.mk (NewClaimData.policyNumber claimData) value
      (NewClaimData.provider claimData) (NewClaimData.claimDate claimData)
  else if String.eqb name "provider" then
    NewClaimData.mk (NewClaimData.policyNumber claimData)
      (NewClaimData.claimAmount claimData) value
      (NewClaimData.claimDate claimData)
  else if String.eqb name "claimDate" then
    NewClaimData.mk (NewClaimData.policyNumber claimData)
      (NewClaimData.claimAmount claimData)
      (NewClaimData.provider claimData) value
  else claimData.

(** [handleChange] of [ModalCreateClaim]: the data handed to
    [setClaimData] for an input event. *)
Definition handleChange (claimData : NewClaimData.t) (name value : string)
  : NewClaimData.t :=
  if String.eqb name "claimAmount" then
    let intValue := JsString.strip_non_digits value in
    with_field claimData name intValue
  else with_field claimData name value.

(** The [disabled] attribute of the submit button of [ModalCreateClaim]. *)
Definition submit_disabled (creating isEncrypting : bool)
  (claimData : NewClaimData.t) : bool :=
  creating || isEncrypting
  || negb (Js.truthy_str (NewClaimData.policyNumber claimData))
  || negb (Js.truthy_str (NewClaimData.claimAmount claimData))
  || negb (Js.truthy_str (NewClaimData.provider claimData)).

(** The predicate of [filteredClaims]. *)
Definition matches (searchTerm filterStatus : string) (claim : ClaimRecord)
  : bool :=
  let matchesSearch :=
    Js.includes (JsString.toLowerCase (policyNumber claim))
      (JsString.toLowerCase searchTerm)
    || Js.includes (JsString.toLowerCase (provider claim))
         (JsString.toLowerCase searchTerm) in
  let matchesFilter :=
    String.eqb filterStatus "all"
    || String.eqb (JsString.toLowerCase (status claim))
         (JsString.toLowerCase filterStatus) in
  matchesSearch && matchesFilter.

Definition filteredClaims (claims : list ClaimRecord)
  (searchTerm filterStatus : string) : list ClaimRecord :=
  filter (matches searchTerm filterStatus) claims.

(** [handleDecrypt] of [ClaimDetailModal]; the program resolves to the
    value of [localDecrypted] once the handler is done. *)
Definition handleDecrypt (claim : ClaimRecord) (decryptClaim : Prog Decrypted)
  (localDecrypted : Decrypted) : Prog Decrypted :=
  if isVerified claim then Ret localDecrypted
  else
    decrypted <- decryptClaim ;;
    match decrypted with
    | Null => Ret localDecrypted
    | _ => Ret decrypted
    end.

(** ** A ledger and a gateway to run against *)

Module Chain.

(** One claim on the ledger: the record [getBusinessData] returns, the
    ciphertext stored with it and the handle that designates it. *)
Record Entry : Type := mkEntry {
  businessId : string;
  data : BusinessData;
  cipher : Blob;
  handle_of : Blob
}.

Record t : Type := mk {
  entries : list Entry;
  blockTime : Z;          (* seconds, stamped on new records *)
  wallClock : Z;          (* milliseconds, what [Date.now()] shows *)
  signer : string;
  providerUp : bool;      (* [getContractReadOnly] yields a contract *)
  walletUp : bool;        (* [getContractWithSigner] yields a contract *)
  gatewayUp : bool;       (* the encryption gateway answers *)
  txCount : Z
}.

Definition payload (b : Blob) : Z :=
  match b with
  | Opaque _ v => v
  end.

Fixpoint find (b : string) (l : list Entry) : option Entry :=
  match l with
  | [] => None
  | e :: rest => if String.eqb (businessId e) b then Some e else find b rest
  end.

Fixpoint find_handle (h : Blob) (l : list Entry) : option Entry :=
  match l with
  | [] => None
  | e :: rest =>
      if blob_eqb (handle_of e) h then Some e else find_handle h rest
  end.

(** The record of a claim once its decryption has been accepted. *)
Definition verified (v : Z) (d : BusinessData) : BusinessData :=
  mkBusinessData (bd_name d) (bd_publicValue1 d) (bd_publicValue2 d)
    (bd_description d) (bd_creator d) (bd_timestamp d) v true.

Fixpoint mark_verified (b : string) (v : Z) (l : list Entry) : list Entry :=
  match l with
  | [] => []
  | e :: rest =>
      if String.eqb (businessId e) b
      then mkEntry (businessId e) (verified v (data e)) (cipher e)
             (handle_of e) :: rest
      else e :: mark_verified b v rest
  end.

Definition with_entries (l : list Entry) (s : t) : t :=
  mk l (blockTime s) (wallClock s) (signer s) (providerUp s) (walletUp s)
    (gatewayUp s) (txCount s).

Definition sent (s : t) : t :=
  mk (entries s) (blockTime s) (wallClock s) (signer s) (providerUp s)
    (walletUp s) (gatewayUp s) (txCount s + 1).

Definition fail {T : Type} (msg : string) (s : t) : (Error + T) * t :=
  (inl (mkError (Some msg)), s).

Fixpoint decrypt_all (hs : list Blob) (l : list Entry)
  : option (list (Blob * Z)) :=
  match hs with
  | [] => Some []
  | h :: rest =>
      match find_handle h l, decrypt_all rest l with
      | Some e, Some cv => Some ((h, payload (cipher e)) :: cv)
      | _, _ => None
      end
  end.

(** Modelled from the spec: the contract and the gateway, neither of
    which is part of the files at hand.  The ledger is append-only and
    keyed by claim id; a new claim is stored unverified with the ledger's
    own timestamp and the signer as creator; [submitVerification] answers
    [AlreadyVerified] for a verified claim, [ProofRejected] for a proof
    that does not match the stored ciphertext, and otherwise records the
    clear value and flips [isVerified], once. *)
Definition handle (T : Type) (c : Call T) (s : t) : (Error + T) * t :=
  match c in Call T return (Error + T) * t with
  | GetContractReadOnly => (inr (providerUp s), s)
  | GetContractWithSigner => (inr (walletUp s), s)
  | GetAllBusinessIds => (inr (map businessId (entries s)), s)
  | GetBusinessData b =>
      match find b (entries s) with
      | Some e => (inr (data e), s)
      | None => fail "Business data does not exist" s
      end
  | GetEncryptedValue b =>
      match find b (entries s) with
      | Some e => (inr (handle_of e), s)
      | None => fail "Business data does not exist" s
      end
  | Encrypt _ _ v =>
      if gatewayUp s
      then (inr (mkEncryptedResult (Opaque "ciphertext" v)
                   (Opaque "input-proof" v)), s)
      else fail "Encryption failed" s
  | CreateBusinessData b name enc prf pv1 pv2 desc =>
      match find b (entries s) with
      | Some _ => fail "Business data already exists" s
      | None =>
          if payload enc =? payload prf then
            let d := mkBusinessData name pv1 pv2 desc (signer s)
                       (blockTime s) 0 false in
            let e := mkEntry b d enc
                       (Opaque "handle"
                          (Z.of_nat (List.length (entries s)))) in
            (inr (txCount s),
             sent (with_entries (entries s ++ [e])%list s))
          else fail "Invalid input proof" s
      end
  | Wait _ => (inr tt, s)
  | RequestDecryption hs _ =>
      if gatewayUp s then
        match decrypt_all hs (entries s) with
        | Some cv =>
            let v := match cv with (_, v) :: _ => v | [] => 0 end in
            (inr (mkDecryptionResult cv (Opaque "clear-values" v)
                    (Opaque "decryption-proof" v)), s)
        | None => fail "Decryption failed" s
        end
      else fail "Decryption failed" s
  | VerifyDecryption b abi prf =>
      match find b (entries s) with
      | None => fail "Business data does not exist" s
      | Some e =>
          if bd_isVerified (data e) then
            fail "execution reverted: Data already verified" s
          else if (payload prf =? payload (cipher e))
                  && (payload abi =? payload (cipher e)) then
            (inr (txCount s),
             sent (with_entries
                     (mark_verified b (payload abi) (entries s)) s))
          else fail "execution reverted: Invalid decryption proof" s
      end
  end.

Definition clock (s : t) : Z := wallClock s.

Definition exec {A : Type} (p : Prog A) (w : World) : (Error + A) * World :=
  run handle clock p w.

(** A fresh session of [App] in front of the ledger [s]. *)
Definition session (s : t) : World := mkWorld s initialUi [].

(** An empty ledger on 2023-11-14, everything being reachable. *)
Definition genesis : t :=
  {| entries := [];
     blockTime := 1700000000;
     wallClock := 1700000000123;
     signer := "0xA11CE";
     providerUp := true;
     walletUp := true;
     gatewayUp := true;
     txCount := 0 |}.

End Chain.

(** ** Scenarios *)

Module Scenario.

(** Two callers in front of the same contract. *)
Definition alice : Render :=
  mkRender true (Some "0xA11CE") "0xC0FFEE"
    (NewClaimData.mk "POL-1" "15000" "Acme" "2020-01-01").

Definition bob : Render :=
  mkRender true (Some "0xB0B") "0xC0FFEE"
    (NewClaimData.mk "POL-2" "700" "Umbrella" "2021-06-30").

(** Alice leaves the amount empty. *)
Definition alice_blank : Render :=
  mkRender true (Some "0xA11CE") "0xC0FFEE"
    (NewClaimData.mk "POL-1" "" "Acme" "2020-01-01").

(** Alice creates her claim on the empty ledger. *)
Definition created : World :=
  snd (Chain.exec (createClaim alice) (Chain.session Chain.genesis)).

Definition claimId : string := "claim-1700000000123".

(** The same ledger seen from another machine: another wallet, and a
    clock of its own. *)
Definition seen_by (who : string) (reading : Z) (s : Chain.t) : Chain.t :=
  Chain.mk (Chain.entries s) (Chain.blockTime s) reading who
    (Chain.providerUp s) (Chain.walletUp s) (Chain.gatewayUp s)
    (Chain.txCount s).

(** Bob creates a claim of his own while his clock shows what Alice's
    showed. *)
Definition bob_created : World :=
  snd (Chain.exec (createClaim bob)
         (Chain.session (seen_by "0xB0B" 1700000000123 (ext created)))).

(** A ledger whose encryption gateway does not answer. *)
Definition gateway_down : Chain.t :=
  Chain.mk [] 1700000000 1700000000123 "0xA11CE" true true false 0.

(** Alice decrypts her claim, then asks again. *)
Definition decrypted : (Error + Decrypted) * World :=
  Chain.exec (decryptClaim alice claimId) (Chain.session (ext created)).

Definition decrypted_again : (Error + Decrypted) * World :=
  Chain.exec (decryptClaim alice claimId)
    (Chain.session (ext (snd decrypted))).

(** Two calls of [decryptClaim] for the same claim, the second one
    started before the first one has submitted its proof: each performs
    its reads and its gateway request, then each submits. *)
Definition two_calls : list (Prog Decrypted) :=
  [decryptClaim alice claimId; decryptClaim alice claimId].

Definition race : list nat :=
  [0; 0; 0; 0; 0; 1; 1; 1; 1; 1; 0; 0; 0; 0; 0; 1; 1; 1; 1]%nat.

Definition raced : list (Prog Decrypted) * World :=
  interleave Chain.handle Chain.clock race two_calls
    (Chain.session (ext created)).

End Scenario.

(** ** Vocabulary of the statements *)

(** The fixed threshold of the specification. *)
Definition THRESHOLD : Z := 10000.

(** What the specification counts as a potential fraud: a verified claim
    whose decrypted value exceeds the threshold; as a proposition, then as
    a test. *)
Definition over_threshold (c : ClaimRecord) : Prop :=
  isVerified c = true /\ exists v, decryptedValue c = Some v /\ v > THRESHOLD.

Definition over_thresholdb (c : ClaimRecord) : bool :=
  isVerified c
  && match decryptedValue c with
     | Some v => v >? THRESHOLD
     | None => false
     end.

(** The number of claims that pass a test. *)
Fixpoint count (f : ClaimRecord -> bool) (l : list ClaimRecord) : nat :=
  match l with
  | [] => O
  | c :: rest => ((if f c then 1 else 0) + count f rest)%nat
  end.

(** A call that only reads the ledger. *)
Definition is_read (e : Event) : bool :=
  match e with
  | Called c =>
      match c with
      | GetContractReadOnly => true
      | GetAllBusinessIds => true
      | GetBusinessData _ => true
      | _ => false
      end
  end.

(** The amount [createClaim] encrypts and submits. *)
Definition amount_of (r : Render) : Z :=
  Js.nan_or_zero (Js.parseInt (NewClaimData.claimAmount (newClaimData r))).

(** The same render with another date typed in the form. *)
Definition with_claimDate (d : string) (r : Render) : Render :=
  mkRender (isConnected r) (address r) (contractAddress r)
    (NewClaimData.mk
       (NewClaimData.policyNumber (newClaimData r))
       (NewClaimData.claimAmount (newClaimData r))
       (NewClaimData.provider (newClaimData r))
       d).

(** [decryptedValue] is not [undefined]. *)
Definition has_decryptedValue (c : ClaimRecord) : Prop :=
  exists v, decryptedValue c = Some v.

(** The invariant of the data model: [decryptedValue] is defined if and
    only if [isVerified] holds. *)
Definition defined_iff_verified (c : ClaimRecord) : Prop :=
  has_decryptedValue c <-> isVerified c = true.

(** At most one verification of the claim is submitted in the trace. *)
Definition single_flight (businessId : string) (tr : list Event) : Prop :=
  (List.length (filter (is_verification_of businessId) tr) <= 1)%nat.

(** No identifier submitted in the first trace is submitted in the
    second. *)
Definition ids_distinct (tr1 tr2 : list Event) : Prop :=
  forall i, In i (submitted_ids tr1) -> ~ In i (submitted_ids tr2).

(** The claim bears the date typed in the form. *)
Definition carries_supplied_date (r : Render) (c : ClaimRecord) : Prop :=
  claimDate c = NewClaimData.claimDate (newClaimData r).

(** One list is the other with some elements left out. *)
Inductive subseq {A : Type} : list A -> list A -> Prop :=
| subseq_nil : subseq [] []
| subseq_skip x l1 l2 : subseq l1 l2 -> subseq l1 (x :: l2)
| subseq_keep x l1 l2 : subseq l1 l2 -> subseq (x :: l1) (x :: l2).

(** What [loadClaims] makes of a record: the status word follows the
    flag, the handle shown is the identifier, and the timestamp is one
    [toISOString] accepts. *)
Definition well_formed (c : ClaimRecord) : Prop :=
  status c = (if isVerified c then "Verified" else "Pending")
  /\ encryptedAmount c = id c
  /\ Z.abs (timestamp c * 1000) <= Js.max_time.

(** Every character is a decimal digit. *)
Definition all_digits (s : string) : bool :=
  forallb JsString.is_digit (list_ascii_of_string s).

(** The sum of the public amounts of the claims. *)
Fixpoint sum_amounts (l : list ClaimRecord) : Z :=
  match l with
  | [] => 0
  | c :: rest => claimAmount c + sum_amounts rest
  end.

(** The second state is the first one but for the console. *)
Definition same_but_console (u u' : UiState) : Prop :=
  claims u' = claims u
  /\ isRefreshing u' = isRefreshing u
  /\ creatingClaim u' = creatingClaim u
  /\ showCreateModal u' = showCreateModal u
  /\ transactionStatus u' = transactionStatus u
  /\ formData u' = formData u
  /\ timers u' = timers u.

(** The reads of the records of a list of identifiers, in order. *)
Definition record_reads (businessIds : list string) : list Event :=
  map (fun b => Called (GetBusinessData b)) businessIds.

(** A ledger whose records cannot be read although their identifiers are
    listed. *)
Definition unreadable (T : Type) (c : Call T) (s : Chain.t)
  : (Error + T) * Chain.t :=
  match c in Call T return (Error + T) * Chain.t with
  | GetBusinessData _ => Chain.fail "missing revert data" s
  | c' => Chain.handle _ c' s
  end.

(** What the ledger answers when asked in turn for the records of a list
    of identifiers, from a given state on. *)
Fixpoint read_all {S : Type}
  (handle : forall T : Type, Call T -> S -> (Error + T) * S)
  (businessIds : list string) (s : S)
  : list (string * (Error + BusinessData)) :=
  match businessIds with
  | [] => []
  | b :: rest =>
      let '(answer, s') := handle _ (GetBusinessData b) s in
      (b, answer) :: read_all handle rest s'
  end.

(** The answer is a record whose timestamp is a valid date. *)
Definition loadable (x : string * (Error + BusinessData)) : bool :=
  match snd x with
  | inr businessData =>
      Z.abs (Js.Number (bd_timestamp businessData) * 1000) <=? Js.max_time
  | inl _ => false
  end.


(** An integer of a contract interface: at most 256 bits. *)
Definition abi_int (v : Z) : Prop := Z.abs v < 2 ^ 256.

(** The ledger has answered [businessData] when asked for the record of
    [businessId]. *)
Definition answered {S : Type}
  (handle : forall T : Type, Call T -> S -> (Error + T) * S)
  (businessId : string) (businessData : BusinessData) : Prop :=
  exists s s',
    handle _ (GetBusinessData businessId) s = (inr businessData, s').

(** What a property of claims needs in order to hold of every claim
    loaded from an answer of the ledger. *)
Definition holds_of_answered {S : Type}
  (handle : forall T : Type, Call T -> S -> (Error + T) * S)
  (P : ClaimRecord -> Prop) : Prop :=
  forall businessId businessData c,
    answered handle businessId businessData ->
    claim_of businessId businessData = Ret c -> P c.

(** The claim carries the flag the ledger answered for its identifier,
    and its [decryptedValue] is defined: it is [Number(v) || 0] for the
    value [v] the ledger answered. *)
Definition copies_ledger_value {S : Type}
  (handle : forall T : Type, Call T -> S -> (Error + T) * S)
  (c : ClaimRecord) : Prop :=
  exists businessData,
    answered handle (id c) businessData
    /\ isVerified c = bd_isVerified businessData
    /\ exists v,
         decryptedValue c = Some v
         /\ (abi_int (bd_decryptedValue businessData) ->
             v = Js.or_zero (Js.Number (bd_decryptedValue businessData))).

(** The [claimDate] of the claim is the calendar date of the timestamp
    the ledger answered for its identifier. *)
Definition dated_by_ledger {S : Type}
  (handle : forall T : Type, Call T -> S -> (Error + T) * S)
  (c : ClaimRecord) : Prop :=
  exists businessData,
    answered handle (id c) businessData
    /\ Js.iso_date (Js.Number (bd_timestamp businessData) * 1000)
       = Some (claimDate c).

(** The status while [createClaim] is at work. *)
Definition creating_status : TransactionStatus.t :=
  TransactionStatus.mk true pending "Creating encrypted claim record...".

(** A gateway whose [encrypt] rejects with [undefined]. *)
Definition encrypt_rejects_undefined (T : Type) (c : Call T) (s : Chain.t)
  : (Error + T) * Chain.t :=
  match c in Call T return (Error + T) * Chain.t with
  | Encrypt _ _ _ => (inl ThrownUndefined, s)
  | c' => Chain.handle _ c' s
  end.

(** What a property of claims needs in order to hold of every loaded
    claim. *)
Definition holds_of_loaded (P : ClaimRecord -> Prop) : Prop :=
  forall businessId businessData c,
    claim_of businessId businessData = Ret c -> P c.

(** ** Further scenarios *)

Module Cases.

(** A ledger whose list of identifiers cannot be obtained. *)
Definition unlistable (T : Type) (c : Call T) (s : Chain.t)
  : (Error + T) * Chain.t :=
  match c in Call T return (Error + T) * Chain.t with
  | GetAllBusinessIds => Chain.fail "could not detect network" s
  | c' => Chain.handle _ c' s
  end.

(** The ledger of Alice's claim behind a provider that is down. *)
Definition provider_down : Chain.t :=
  Chain.mk (Chain.entries (ext Scenario.created)) 1700000000 1700000000123
    "0xA11CE" false true true 1.

(** The ledger of Alice's claim while the gateway is down. *)
Definition gateway_lost : Chain.t :=
  Chain.mk (Chain.entries (ext Scenario.created)) 1700000000 1700000000123
    "0xA11CE" true true false 1.

(** Bob in front of the ledger of Alice's claim, his clock showing what
    Alice's showed. *)
Definition bob_late : Chain.t :=
  Scenario.seen_by "0xB0B" 1700000000123 (ext Scenario.created).

(** A visitor who has not connected a wallet. *)
Definition visitor : Render :=
  mkRender false None "0xC0FFEE" (NewClaimData.mk "POL-9" "12" "Acme" "").

(** Alice's claim once verified, and a claim of Bob's still pending, as
    a refresh builds them. *)
Definition verified_claim : ClaimRecord :=
  mkClaimRecord "claim-1700000000123" "POL-1" 15000 "2023-11-14" "Acme"
    "Verified" "claim-1700000000123" true (Some 15000) 1700000000 "0xA11CE".

Definition pending_claim : ClaimRecord :=
  mkClaimRecord "claim-1700000360000" "POL-2" 700 "2023-11-14" "Umbrella"
    "Pending" "claim-1700000360000" false (Some 0) 1700000360 "0xB0B".

(** A form with everything but the amount filled in. *)
Definition draft : NewClaimData.t := NewClaimData.mk "POL-1" "" "Acme" "".

End Cases.

(** ** Properties of the primitives *)

Example parseInt_empty : Js.parseInt "" = None.
Proof. reflexivity. Qed.

Example parseInt_word : Js.parseInt "abc" = None.
Proof. reflexivity. Qed.

Example parseInt_prefix : Js.parseInt "  15000 USD" = Some 15000.
Proof. reflexivity. Qed.

Example parseInt_hex : Js.parseInt "-0x1F" = Some (-31).
Proof. reflexivity. Qed.

Example iso_date_epoch : Js.iso_date 0 = Some "1970-01-01".
Proof. reflexivity. Qed.

Example iso_date_2023 : Js.iso_date 1700000000000 = Some "2023-11-14".
Proof. vm_compute. reflexivity. Qed.

Example iso_date_leap : Js.iso_date 951782400000 = Some "2000-02-29".
Proof. vm_compute. reflexivity. Qed.

Example iso_date_before_epoch : Js.iso_date (-1) = Some "1969-12-31".
Proof. vm_compute. reflexivity. Qed.

Example iso_date_far : Js.iso_date Js.max_time = Some "+275760-09-13".
Proof. vm_compute. reflexivity. Qed.


Lemma round64_exact (x : Z) : Z.abs x <= 2 ^ 53 -> Js.round64 x = x.
Proof.
  intros H. unfold Js.round64.
  destruct (Z.log2 (Z.abs x) <? 53) eqn:E; [reflexivity|].
  apply Z.ltb_ge in E.
  assert (Hpos : 0 < Z.abs x).
  { destruct (Z.eq_dec (Z.abs x) 0) as [E0|]; [|lia].
    rewrite E0 in E. cbn in E. lia. }
  apply Z.log2_le_pow2 in E; [|exact Hpos].
  assert (Hx : x = 2 ^ 53 \/ x = - 2 ^ 53) by lia.
  destruct Hx as [->| ->]; reflexivity.
Qed.


Example Number_rounds : Js.Number (2 ^ 53 + 1) = 2 ^ 53.
Proof. reflexivity. Qed.

Example Number_rounds_up : Js.Number (2 ^ 53 + 3) = 2 ^ 53 + 4.
Proof. reflexivity. Qed.

Lemma to_string_inj (a b : Z) : Js.to_string a = Js.to_string b -> a = b.
Proof.
  unfold Js.to_string. intros H.
  apply DecimalZ.to_int_inj.
  assert (E : Some (Z.to_int a) = Some (Z.to_int b))
    by (rewrite <- !NilEmpty.isi; now rewrite H).
  now injection E.
Qed.

(** ** Properties of the fraud statistics *)

Lemma over_thresholdb_spec (c : ClaimRecord) :
  over_thresholdb c = true <-> over_threshold c.
Proof.
  unfold over_thresholdb, over_threshold. split.
  - intros H. apply andb_true_iff in H as [Hv Hd]. split; [exact Hv|].
    destruct (decryptedValue c) as [v|]; [|discriminate].
    exists v. split; [reflexivity|]. now apply Z.gtb_gt.
  - intros [Hv [v [Hd Hgt]]]. rewrite Hv, Hd. now apply Z.gtb_gt.
Qed.

Lemma is_potential_fraud_spec (c : ClaimRecord) :
  is_potential_fraud c = over_thresholdb c.
Proof.
  unfold is_potential_fraud, over_thresholdb, THRESHOLD, Js.truthy_num.
  destruct (isVerified c); [|reflexivity]. cbn.
  destruct (decryptedValue c) as [v|]; [|reflexivity].
  rewrite Z.gtb_ltb.
  destruct (v =? 0) eqn:E; [|reflexivity].
  apply Z.eqb_eq in E. now subst.
Qed.

Lemma length_filter_count (f g : ClaimRecord -> bool) (l : list ClaimRecord) :
  (forall c, f c = g c) -> List.length (filter f l) = count g l.
Proof.
  intros H. induction l as [|c rest IH]; [reflexivity|].
  cbn. rewrite H. destruct (g c); cbn; now rewrite IH.
Qed.

(** C6. In every snapshot of the repository, [potentialFrauds] is the
    number of claims that are verified and whose decrypted value is
    greater than the fixed threshold 10000. *)
Theorem potentialFrauds_counts_over_threshold :
  forall (clock : nat -> Z) (snapshot : list ClaimRecord),
    potentialFrauds (getFraudStats clock snapshot)
    = count over_thresholdb snapshot.
Proof.
  intros clock snapshot. unfold getFraudStats. cbn [potentialFrauds].
  apply length_filter_count, is_potential_fraud_spec.
Qed.

(** X21. Whatever the snapshot and the clock, the average processing time
    is a finite number, never [NaN] nor an infinity: the only divisors are
    the length of a non-empty list and 3600. *)
Lemma avgProcessingTime_finite (clock : nat -> Z) (l : list ClaimRecord) :
  exists q, avgProcessingTime (getFraudStats clock l) = Js.Fin q.
Proof.
  unfold getFraudStats. cbn [avgProcessingTime].
  destruct l as [|c rest].
  - eexists. reflexivity.
  - cbn [Nat.ltb Nat.leb List.length].
    assert (Hz : Js.is_zero
                   (inject_Z (Z.of_nat (Datatypes.S (List.length rest))))
                 = false).
    { unfold Js.is_zero, Qeq_bool, inject_Z. cbn [Qnum Qden].
      apply Z.eqb_neq. lia. }
    unfold Js.div at 2. rewrite Hz.
    unfold Js.div. cbn. eexists. reflexivity.
Qed.

(** C7. On an empty claim set [getFraudStats] returns [totalClaims = 0]
    and [avgProcessingTime = 0], a finite number: the division by the
    number of claims is not performed. *)
Theorem getFraudStats_empty :
  forall clock : nat -> Z,
    getFraudStats clock []
    = {| totalClaims := 0;
         verifiedClaims := 0;
         potentialFrauds := 0;
         totalAmount := 0;
         avgProcessingTime := Js.Fin 0 |}.
Proof.
  intros clock. reflexivity.
Qed.

(** ** How programs run *)

Section RunFacts.

Context {S : Type}.
Variable handle : forall T : Type, Call T -> S -> (Error + T) * S.
Variable clock : S -> Z.

Local Abbreviation exec := (run handle clock).

Lemma run_bind {A B : Type} (p : Prog A) (f : A -> Prog B) (w : World) :
  exec (bind p f) w
  = match exec p w with
    | (inl e, w') => (inl e, w')
    | (inr a, w') => exec (f a) w'
    end.
Proof.
  revert w. induction p as [a|e|T c k IH|k IH|u k IH]; intros w; cbn.
  - reflexivity.
  - reflexivity.
  - destruct (handle T c (ext w)) as [r s]. apply IH.
  - apply IH.
  - apply IH.
Qed.

Lemma run_try_catch {A : Type} (p : Prog A) (h : Error -> Prog A) (w : World) :
  exec (try_catch p h) w
  = match exec p w with
    | (inl e, w') => exec (h e) w'
    | (inr a, w') => (inr a, w')
    end.
Proof.
  revert w. induction p as [a|e|T c k IH|k IH|u k IH]; intros w; cbn.
  - reflexivity.
  - reflexivity.
  - destruct (handle T c (ext w)) as [r s]. apply IH.
  - apply IH.
  - apply IH.
Qed.

(** Running a task step by step reaches what [run] reaches. *)
Lemma run_advance {A : Type} (p : Prog A) (w : World) :
  exec (fst (advance clock p w)) (snd (advance clock p w)) = exec p w.
Proof.
  revert w. induction p as [a|e|T c k IH|k IH|u k IH]; intros w; cbn;
    try reflexivity; apply IH.
Qed.

Lemma run_step {A : Type} (p : Prog A) (w : World) :
  exec (fst (step handle clock p w)) (snd (step handle clock p w)) = exec p w.
Proof.
  destruct p as [a|e|T c k|k|u k]; try apply run_advance.
  cbn. destruct (handle T c (ext w)) as [r s]. apply run_advance.
Qed.

Lemma reads_are_not_writes (tr : list Event) :
  forallb is_read tr = true -> filter is_write tr = [].
Proof.
  induction tr as [|e tr IH]; [reflexivity|].
  cbn. intros H. apply andb_true_iff in H as [He Htr].
  destruct e as [T c]. destruct c; cbn in *; try discriminate; now apply IH.
Qed.

Lemma reads_submit_nothing (tr : list Event) :
  forallb is_read tr = true -> submitted_ids tr = [].
Proof.
  induction tr as [|e tr IH]; [reflexivity|].
  cbn. intros H. apply andb_true_iff in H as [He Htr].
  destruct e as [T c]. destruct c; cbn in *; try discriminate; now apply IH.
Qed.

Lemma reads_are_not_protocol (tr : list Event) :
  forallb is_read tr = true -> filter is_protocol tr = [].
Proof.
  induction tr as [|e tr IH]; [reflexivity|].
  cbn. intros H. apply andb_true_iff in H as [He Htr].
  destruct e as [T c]. destruct c; cbn in *; try discriminate; now apply IH.
Qed.

(** The loop of [loadClaims] never throws, only reads, leaves the
    repository alone and appends claims built by [claim_of]. *)
Lemma load_each_run (businessIds : list string) :
  forall (acc : list ClaimRecord) (w : World),
  exists l w' tr,
    exec (load_each businessIds acc) w = (inr l, w')
    /\ trace w' = (trace w ++ tr)%list
    /\ forallb is_read tr = true
    /\ claims (ui w') = claims (ui w)
    /\ forall P, holds_of_loaded P -> Forall P acc -> Forall P l.
Proof.
  induction businessIds as [|b rest IH]; intros acc w.
  - exists acc, w, []. cbn. rewrite app_nil_r. auto.
  - cbn [load_each]. rewrite run_bind, run_try_catch, run_bind. cbn.
    destruct (handle _ (GetBusinessData b) (ext w)) as [[e|bd] s]; cbn.
    + match goal with |- context [exec (load_each rest acc) ?w0] =>
        destruct (IH acc w0) as (l & w' & tr & Hrun & Htr & Hrd & Hcl & HP)
      end.
      exists l, w', (Called (GetBusinessData b) :: tr).
      rewrite Hrun, Htr. cbn. rewrite <- app_assoc. auto.
    + rewrite run_bind.
      destruct (claim_of b bd) as [c|e|T c k|k|u k] eqn:Hc;
        try (unfold claim_of in Hc;
             destruct (Js.iso_date _) in Hc; discriminate).
      * cbn.
        match goal with |- context [exec (load_each rest ?a) ?w0] =>
          destruct (IH a w0) as (l & w' & tr & Hrun & Htr & Hrd & Hcl & HP)
        end.
        exists l, w', (Called (GetBusinessData b) :: tr).
        rewrite Hrun, Htr. cbn. rewrite <- app_assoc.
        repeat split; auto.
        intros P HPl Hacc. apply HP; [exact HPl|].
        apply Forall_app. split; [exact Hacc|].
        constructor; [|constructor]. eapply HPl, Hc.
      * cbn.
        match goal with |- context [exec (load_each rest acc) ?w0] =>
          destruct (IH acc w0) as (l & w' & tr & Hrun & Htr & Hrd & Hcl & HP)
        end.
        exists l, w', (Called (GetBusinessData b) :: tr).
        rewrite Hrun, Htr. cbn. rewrite <- app_assoc. auto.
Qed.

(** [loadClaims] never throws, only reads, and keeps in the repository
    every property that [claim_of] establishes. *)
Lemma loadClaims_run (r : Render) (w : World) :
  exists w' tr,
    exec (loadClaims r) w = (inr tt, w')
    /\ trace w' = (trace w ++ tr)%list
    /\ forallb is_read tr = true
    /\ forall P, holds_of_loaded P ->
                 Forall P (claims (ui w)) -> Forall P (claims (ui w')).
Proof.
  unfold loadClaims. destruct (isConnected r); cbn.
  2:{ exists w, []. rewrite app_nil_r. auto. }
  destruct (handle _ GetContractReadOnly (ext w)) as [[e|[|]] s]; cbn.
  - eexists _, [_]. repeat split; auto.
  - destruct (handle _ GetAllBusinessIds s) as [[e|ids] s1]; cbn.
    + eexists _, [_; _]. rewrite <- app_assoc. repeat split; auto.
    + rewrite run_bind, !run_try_catch, run_bind.
      match goal with |- context [exec (load_each ids []) ?w0] =>
        destruct (load_each_run ids [] w0)
          as (l & w' & tr & Hrun & Htr & Hrd & Hcl & HP)
      end.
      rewrite Hrun. cbn.
      eexists _, (_ :: _ :: tr). cbn. rewrite Htr. cbn.
      rewrite <- !app_assoc. repeat split; auto.
  - eexists _, [_]. repeat split; auto.
Qed.

(** The same, for properties that speak of what the ledger answered. *)
Lemma load_each_answered (businessIds : list string) :
  forall (acc : list ClaimRecord) (w : World),
  exists l w',
    exec (load_each businessIds acc) w = (inr l, w')
    /\ forall P, holds_of_answered handle P -> Forall P acc -> Forall P l.
Proof.
  induction businessIds as [|b rest IH]; intros acc w.
  - exists acc, w. cbn. auto.
  - cbn [load_each]. rewrite run_bind, run_try_catch, run_bind. cbn.
    destruct (handle _ (GetBusinessData b) (ext w)) as [[e|bd] s] eqn:Hb; cbn.
    + match goal with |- context [exec (load_each rest acc) ?w0] =>
        destruct (IH acc w0) as (l & w' & Hrun & HP)
      end.
      exists l, w'. rewrite Hrun. auto.
    + rewrite run_bind.
      destruct (claim_of b bd) as [c|e|T c k|k|u k] eqn:Hc;
        try (unfold claim_of in Hc;
             destruct (Js.iso_date _) in Hc; discriminate).
      * cbn.
        match goal with |- context [exec (load_each rest ?a) ?w0] =>
          destruct (IH a w0) as (l & w' & Hrun & HP)
        end.
        exists l, w'. rewrite Hrun. split; [reflexivity|].
        intros P HPl Hacc. apply HP; [exact HPl|].
        apply Forall_app. split; [exact Hacc|].
        constructor; [|constructor].
        apply (HPl b bd c); [|exact Hc]. exists (ext w), s. exact Hb.
      * cbn.
        match goal with |- context [exec (load_each rest acc) ?w0] =>
          destruct (IH acc w0) as (l & w' & Hrun & HP)
        end.
        exists l, w'. rewrite Hrun. auto.
Qed.

Lemma loadClaims_answered (r : Render) (w : World) :
  exists w',
    exec (loadClaims r) w = (inr tt, w')
    /\ forall P, holds_of_answered handle P ->
                 Forall P (claims (ui w)) -> Forall P (claims (ui w')).
Proof.
  unfold loadClaims. destruct (isConnected r); cbn.
  2:{ exists w. auto. }
  destruct (handle _ GetContractReadOnly (ext w)) as [[e|[|]] s]; cbn.
  - eexists. split; [reflexivity|]. auto.
  - destruct (handle _ GetAllBusinessIds s) as [[e|ids] s1]; cbn.
    + eexists. split; [reflexivity|]. auto.
    + rewrite run_bind, !run_try_catch, run_bind.
      match goal with |- context [exec (load_each ids []) ?w0] =>
        destruct (load_each_answered ids [] w0) as (l & w' & Hrun & HP)
      end.
      rewrite Hrun. cbn. eexists. split; [reflexivity|]. cbn.
      intros P HPl _. apply HP; [exact HPl|constructor].
  - eexists. split; [reflexivity|]. auto.
Qed.

End RunFacts.

(** ** Properties of the coordinator *)

Arguments loadClaims : simpl never.

Ltac one_write :=
  first [ left; reflexivity | right; eexists _, _; reflexivity ].

(** Closes a goal that asks for the final world and the events added to
    the trace, once the run has been computed. *)
Ltac conclude :=
  eexists _, _; split; [reflexivity|]; cbn;
  split; [rewrite <- ?app_assoc; cbn; reflexivity|]; cbn; auto 10.

(** Answers the calls in sight, each in both ways, and lets a [catch]
    block look at the value it caught, whatever that value is. *)
Ltac answer handle :=
  repeat first
    [ match goal with
      | |- context [handle ?T ?c ?s] =>
          let e := fresh "e" in
          let v := fresh "v" in
          let s' := fresh "s" in
          let E := fresh "E" in
          destruct (handle T c s) as [[e|v] s'] eqn:E; cbn
      end
    | match goal with
      | |- context [message_includes ?e _] =>
          is_var e; destruct e as [[?|]|? ?| |]; cbn
      | |- context [Js.includes ?m ?t] => destruct (Js.includes m t); cbn
      | |- context [negb ?b] => destruct b; cbn
      | |- context [bd_isVerified ?b] => destruct (bd_isVerified b); cbn
      end ].

Section Coordinator.

Context {S : Type}.
Variable handle : forall T : Type, Call T -> S -> (Error + T) * S.
Variable clock : S -> Z.

(** Runs the refresh that ends a path, if there is one. *)
Ltac reload r :=
  repeat (rewrite run_bind || rewrite run_try_catch);
  match goal with
  | |- context [run handle clock (loadClaims r) ?w0] =>
      let w' := fresh "w'" in
      let tr := fresh "tr" in
      destruct (loadClaims_run handle clock r w0)
        as (w' & tr & Hrun & Htr & Hrd & _);
      cbn in Htr; rewrite Hrun; cbn
  end.


(** C3, on the code. When the [encrypt] step of [createClaim] fails, no
    transaction is sent to the ledger and the claims of the repository
    are unchanged, whatever the rejection.  The status shows an error
    when the rejection is a value whose [message] is a string or is
    absent; when it is [null], [undefined] or a value with another kind
    of message, the [catch] block throws while it reads the message,
    [createClaim] rejects and the status still shows the pending
    creation. *)
Theorem createClaim_encrypt_fails :
  forall (r : Render) (w : World) (e : Error) (s1 s2 : S),
    isConnected r = true ->
    has_address r = true ->
    handle _ GetContractWithSigner (ext w) = (inr true, s1) ->
    handle _ (Encrypt (contractAddress r) (address_of r) (amount_of r)) s1
    = (inl e, s2) ->
    (exists tr,
       trace (snd (run handle clock (createClaim r) w))
       = (trace w ++ tr)%list
       /\ filter is_write tr = []
       /\ submitted_ids tr = [])
    /\ claims (ui (snd (run handle clock (createClaim r) w)))
       = claims (ui w)
    /\ match e with
       | mkError _ =>
           fst (run handle clock (createClaim r) w) = inr tt
           /\ TransactionStatus.visible
                (transactionStatus
                   (ui (snd (run handle clock (createClaim r) w))))
              = true
           /\ TransactionStatus.status
                (transactionStatus
                   (ui (snd (run handle clock (createClaim r) w))))
              = error
       | _ =>
           (exists e', fst (run handle clock (createClaim r) w) = inl e')
           /\ transactionStatus
                (ui (snd (run handle clock (createClaim r) w)))
              = creating_status
       end.
Proof.
  intros r w e s1 s2 Hc Ha Hsg Henc.
  unfold createClaim. rewrite Hc, Ha. cbn.
  rewrite Hsg. cbn. fold (amount_of r). rewrite Henc. cbn.
  destruct e as [[m|]|sh t| |]; cbn;
    try (destruct (Js.includes m "user rejected transaction"); cbn);
    (split; [eexists; rewrite <- ?app_assoc; cbn;
             split; [reflexivity|]; cbn; auto|]);
    repeat split; eexists; reflexivity.
Qed.

(** C10. When the amount typed in the form is empty or cannot be parsed
    as an integer, [createClaim] performs no validation: the amount
    becomes 0, 0 is what is encrypted, and a claim whose public amount is
    0 is submitted to the ledger. *)
Theorem createClaim_unparseable_amount :
  forall (r : Render) (w : World) (enc : EncryptedResult) (s1 s2 : S),
    Js.parseInt (NewClaimData.claimAmount (newClaimData r)) = None ->
    isConnected r = true ->
    has_address r = true ->
    handle _ GetContractWithSigner (ext w) = (inr true, s1) ->
    handle _ (Encrypt (contractAddress r) (address_of r) 0) s1
    = (inr enc, s2) ->
    exists tr,
      trace (snd (run handle clock (createClaim r) w))
      = (trace w
         ++ [Called GetContractWithSigner;
             Called (Encrypt (contractAddress r) (address_of r) 0);
             Called (CreateBusinessData
                       (newBusinessId (clock s1))
                       (NewClaimData.policyNumber (newClaimData r))
                       (encryptedData enc) (proof enc) 0 0
                       (NewClaimData.provider (newClaimData r)))]
         ++ tr)%list.
Proof.
  intros r w enc s1 s2 Hp Hc Ha Hsg Henc.
  unfold createClaim. rewrite Hc, Ha, Hp. cbn.
  rewrite Hsg. cbn. rewrite Henc. cbn.
  answer handle; try reload r;
    eexists; cbn; rewrite ?Htr; rewrite <- ?app_assoc; cbn; reflexivity.
Qed.

(** C4, as amended. One call of [decryptClaim] sends at most one
    transaction to the ledger, a verification of its own claim, whatever
    the outside world answers; it holds no lock and knows no
    [VerificationInProgress] rejection, so that the bound is per call and
    not per claim. *)
Theorem decryptClaim_at_most_one_write :
  forall (r : Render) (businessId : string) (w : World),
    exists tr,
      trace (snd (run handle clock (decryptClaim r businessId) w))
      = (trace w ++ tr)%list
      /\ (filter is_write tr = []
          \/ exists abiEncoded decryptionProof,
               filter is_write tr
               = [Called (VerifyDecryption businessId abiEncoded
                            decryptionProof)]).
Proof.
  intros r businessId w. unfold decryptClaim, verifyDecryption.
  destruct (negb (isConnected r) || negb (has_address r)); cbn.
  { exists []. rewrite app_nil_r. cbn. auto. }
  answer handle; try reload r;
    eexists; cbn; rewrite ?Htr;
    (split; [rewrite <- ?app_assoc; cbn; reflexivity|]); cbn;
    rewrite ?reads_are_not_writes by assumption; one_write.
Qed.

(** C5, as amended. After a refresh every claim of the repository has a
    defined [decryptedValue], whether it is verified or not: it is
    [Number(v) || 0] for the value [v] the ledger answered for the claim,
    and [isVerified] is the flag the ledger answered. *)
Theorem loadClaims_decryptedValue_defined :
  forall (r : Render) (w : World),
    Forall (copies_ledger_value handle) (claims (ui w)) ->
    Forall (copies_ledger_value handle)
      (claims (ui (snd (run handle clock (loadClaims r) w)))).
Proof.
  intros r w H.
  destruct (loadClaims_answered handle clock r w) as (w' & Hrun & HP).
  rewrite Hrun. cbn. apply HP; [|exact H].
  intros b bd c Hans Hc. unfold claim_of in Hc.
  destruct (Js.iso_date _); [|discriminate].
  injection Hc as <-. exists bd. cbn. repeat split; [exact Hans|].
  eexists. split; reflexivity.
Qed.

(** C9, as amended. The date typed in the form takes no part in
    [createClaim]: the program is the same whatever date is supplied, so
    nothing of it reaches the ledger.  The [claimDate] of every claim a
    refresh loads is the calendar date of the timestamp the ledger
    answered for that claim. *)
Theorem claimDate_is_ledger_date :
  forall (r : Render) (d : string) (w : World),
    Forall (dated_by_ledger handle) (claims (ui w)) ->
    createClaim (with_claimDate d r) = createClaim r
    /\ Forall (dated_by_ledger handle)
         (claims (ui (snd (run handle clock (loadClaims r) w)))).
Proof.
  intros r d w H. split.
  - destruct r as [c a ca [pn am pv cd]]. reflexivity.
  - destruct (loadClaims_answered handle clock r w) as (w' & Hrun & HP).
    rewrite Hrun. cbn. apply HP; [|exact H].
    intros b bd c Hans Hc. unfold claim_of in Hc.
    destruct (Js.iso_date _) eqn:E; [|discriminate].
    injection Hc as <-. exists bd. cbn. split; [exact Hans|exact E].
Qed.

(** C8, as amended. [createClaim] submits at most one claim, whose
    identifier is [claim-] followed by the reading of the millisecond
    clock taken once the signer contract is at hand, and nothing else:
    two invocations are given distinct identifiers exactly when their
    clock readings differ. *)
Theorem createClaim_id_is_clock_reading :
  forall (r : Render) (w : World),
    (exists tr,
       trace (snd (run handle clock (createClaim r) w))
       = (trace w ++ tr)%list
       /\ (submitted_ids tr = []
           \/ submitted_ids tr
              = [newBusinessId
                   (clock (snd (handle _ GetContractWithSigner (ext w))))]))
    /\ forall t1 t2 : Z, newBusinessId t1 = newBusinessId t2 <-> t1 = t2.
Proof.
  intros r w. split.
  - unfold createClaim.
    destruct (negb (isConnected r) || negb (has_address r)); cbn.
    { exists []. rewrite app_nil_r. cbn. auto. }
    destruct (handle _ GetContractWithSigner (ext w)) as [[e|[|]] s1]; cbn.
    + answer handle;
        eexists; cbn; (split; [rewrite <- ?app_assoc; cbn; reflexivity|]);
        cbn; auto.
    + answer handle; try reload r;
        eexists; cbn; rewrite ?Htr;
        (split; [rewrite <- ?app_assoc; cbn; reflexivity|]); cbn;
        rewrite ?reads_submit_nothing by assumption; auto.
    + answer handle;
        eexists; cbn; (split; [rewrite <- ?app_assoc; cbn; reflexivity|]);
        cbn; auto.
  - intros t1 t2. split; [|now intros ->].
    unfold newBusinessId. cbn. intros H.
    injection H as H. now apply to_string_inj.
Qed.

End Coordinator.

(** ** The scenarios, run *)

Import Scenario.

Example created_repository :
  claims (ui created)
  = [ {| id := claimId;
         policyNumber := "POL-1";
         claimAmount := 15000;
         claimDate := "2023-11-14";
         provider := "Acme";
         status := "Pending";
         encryptedAmount := claimId;
         isVerified := false;
         decryptedValue := Some 0;
         timestamp := 1700000000;
         creator := "0xA11CE" |} ].
Proof. vm_compute. reflexivity. Qed.

Example decrypted_value : fst decrypted = inr (Value 15000).
Proof. vm_compute. reflexivity. Qed.

(** Asked again, Alice gets the same value from two reads of the ledger. *)
Example decrypted_again_value :
  fst decrypted_again = inr (Value 15000)
  /\ trace (snd decrypted_again)
     = [Called GetContractReadOnly; Called (GetBusinessData claimId)].
Proof. vm_compute. split; reflexivity. Qed.

Example decrypted_stats :
  potentialFrauds
    (getFraudStats (fun _ => 1700003600000) (claims (ui (snd decrypted))))
  = 1%nat.
Proof. vm_compute. reflexivity. Qed.

(** The ledger record of Alice's claim once it has been verified. *)
Example verified_record :
  Chain.find claimId (Chain.entries (ext (snd decrypted)))
  = Some (Chain.mkEntry claimId
            (mkBusinessData "POL-1" 15000 0 "Acme" "0xA11CE" 1700000000
               15000 true)
            (Opaque "ciphertext" 15000) (Opaque "handle" 0)).
Proof. vm_compute. reflexivity. Qed.


Lemma createClaim_encrypt_fails_witness :
  (exists tr,
     trace (snd (run encrypt_rejects_undefined Chain.clock
                   (createClaim alice) (Chain.session Chain.genesis)))
     = (trace (Chain.session Chain.genesis) ++ tr)%list
     /\ filter is_write tr = []
     /\ submitted_ids tr = [])
  /\ claims (ui (snd (run encrypt_rejects_undefined Chain.clock
                        (createClaim alice) (Chain.session Chain.genesis))))
     = claims (ui (Chain.session Chain.genesis))
  /\ (exists e',
        fst (run encrypt_rejects_undefined Chain.clock (createClaim alice)
               (Chain.session Chain.genesis)) = inl e')
  /\ transactionStatus
       (ui (snd (run encrypt_rejects_undefined Chain.clock
                   (createClaim alice) (Chain.session Chain.genesis))))
     = creating_status.
Proof.
  apply (createClaim_encrypt_fails encrypt_rejects_undefined Chain.clock
           alice (Chain.session Chain.genesis) ThrownUndefined
           Chain.genesis Chain.genesis);
    vm_compute; reflexivity.
Defined.

(** With a gateway that is down and says so, the status shows the
    error. *)
Example createClaim_gateway_down :
  fst (Chain.exec (createClaim alice) (Chain.session gateway_down)) = inr tt
  /\ transactionStatus
       (ui (snd (Chain.exec (createClaim alice)
                   (Chain.session gateway_down))))
     = TransactionStatus.mk true error "Submission failed: Encryption failed".
Proof. vm_compute. split; reflexivity. Qed.

Lemma createClaim_unparseable_amount_witness :
  exists tr,
    trace (snd (Chain.exec (createClaim alice_blank)
                  (Chain.session Chain.genesis)))
    = ([Called GetContractWithSigner;
        Called (Encrypt "0xC0FFEE" "0xA11CE" 0);
        Called (CreateBusinessData claimId "POL-1"
                  (Opaque "ciphertext" 0) (Opaque "input-proof" 0)
                  0 0 "Acme")]
       ++ tr)%list.
Proof.
  apply (createClaim_unparseable_amount Chain.handle Chain.clock
           alice_blank (Chain.session Chain.genesis)
           (mkEncryptedResult (Opaque "ciphertext" 0)
              (Opaque "input-proof" 0))
           Chain.genesis Chain.genesis);
    vm_compute; reflexivity.
Defined.

Lemma loadClaims_decryptedValue_defined_witness :
  Forall (copies_ledger_value Chain.handle)
    (claims (ui (snd (Chain.exec (loadClaims alice)
                        (Chain.session (ext created)))))).
Proof.
  apply (loadClaims_decryptedValue_defined Chain.handle Chain.clock
           alice (Chain.session (ext created))).
  cbn. constructor.
Defined.

Lemma claimDate_is_ledger_date_witness :
  createClaim (with_claimDate "1999-12-31" alice) = createClaim alice
  /\ Forall (dated_by_ledger Chain.handle)
       (claims (ui (snd (Chain.exec (loadClaims alice)
                           (Chain.session (ext created)))))).
Proof.
  apply (claimDate_is_ledger_date Chain.handle Chain.clock
           alice "1999-12-31" (Chain.session (ext created))).
  cbn. constructor.
Defined.

(** C2, on the code. Alice's claim is unverified when the second call
    reads it and verified when the second call submits its proof: the
    ledger answers that the data is already verified, the status shows a
    success, and the call resolves to [null] although the ledger stores
    15000 for that claim. *)
Theorem decryptClaim_midflight_already_verified_returns_null :
  fst raced = [Ret (Value 15000); Ret Null]
  /\ TransactionStatus.status (transactionStatus (ui (snd raced))) = success
  /\ TransactionStatus.message (transactionStatus (ui (snd raced)))
     = "Data is already verified on-chain"
  /\ option_map (fun e => bd_decryptedValue (Chain.data e))
       (Chain.find claimId (Chain.entries (ext (snd raced))))
     = Some 15000.
Proof. vm_compute. repeat split; reflexivity. Qed.

(** C4, refuted as stated. Two interleaved calls for the same claim both
    submit a verification: the second one neither waits for the first nor
    is rejected before it reaches the ledger. *)
Lemma interleaved_calls_submit_twice :
  ~ single_flight claimId (trace (snd raced)).
Proof.
  unfold single_flight.
  replace (List.length
             (filter (is_verification_of claimId) (trace (snd raced))))
    with 2%nat by (vm_compute; reflexivity).
  lia.
Qed.

(** C5, refuted as stated. After a refresh Alice's claim is not verified
    and yet its [decryptedValue] is defined: it is 0. *)
Lemma unverified_claim_has_decryptedValue :
  ~ Forall defined_iff_verified (claims (ui created)).
Proof.
  rewrite created_repository. intros H.
  apply Forall_inv in H. destruct H as [H _].
  cbn in H. discriminate H. exists 0. reflexivity.
Qed.

(** C8, refuted as stated. Alice and Bob are two callers with two
    different claims; Bob's clock shows what Alice's showed, and both
    invocations assign the same identifier. *)
Lemma two_invocations_same_id :
  address alice <> address bob
  /\ newClaimData alice <> newClaimData bob
  /\ ~ ids_distinct (trace created) (trace bob_created).
Proof.
  split; [discriminate|]. split; [discriminate|].
  intros H. apply (H claimId).
  - replace (submitted_ids (trace created)) with [claimId]
      by (vm_compute; reflexivity).
    left. reflexivity.
  - replace (submitted_ids (trace bob_created)) with [claimId]
      by (vm_compute; reflexivity).
    left. reflexivity.
Qed.

(** C9, refuted as stated. Alice supplies 2020-01-01; the only
    transaction sent carries no date, and the stored claim is dated
    2023-11-14, the day of the ledger's timestamp. *)
Lemma stored_claimDate_differs_from_supplied :
  filter is_write (trace created)
  = [Called (CreateBusinessData claimId "POL-1"
               (Opaque "ciphertext" 15000) (Opaque "input-proof" 15000)
               15000 0 "Acme")]
  /\ ~ Forall (carries_supplied_date alice) (claims (ui created)).
Proof.
  split; [vm_compute; reflexivity|].
  rewrite created_repository. intros H.
  apply Forall_inv in H. discriminate H.
Qed.

(** ** Further properties of the fraud statistics *)

Lemma filter_length_mono {A : Type} (f g : A -> bool) (l : list A) :
  (forall a, f a = true -> g a = true) ->
  (List.length (filter f l) <= List.length (filter g l))%nat.
Proof.
  intros H. induction l as [|a l IH]; [reflexivity|]. cbn.
  destruct (f a) eqn:Ef.
  - rewrite (H a Ef). cbn. lia.
  - destruct (g a); cbn; lia.
Qed.

Lemma sum_amounts_nonneg (l : list ClaimRecord) :
  Forall (fun c => 0 <= claimAmount c) l -> 0 <= sum_amounts l.
Proof.
  induction 1 as [|c l Hc Hl IH]; cbn; lia.
Qed.

Lemma fold_amounts_exact (l : list ClaimRecord) :
  forall acc : Z,
    0 <= acc ->
    Forall (fun c => 0 <= claimAmount c) l ->
    acc + sum_amounts l <= 2 ^ 53 ->
    fold_left (fun sum c => Js.round64 (sum + claimAmount c)) l acc
    = acc + sum_amounts l.
Proof.
  induction l as [|c l IH]; intros acc Hacc Hl Hsum; cbn.
  - lia.
  - apply Forall_cons_iff in Hl as [Hc Hl]. cbn in Hsum.
    pose proof (sum_amounts_nonneg l Hl) as Hn.
    rewrite round64_exact by lia.
    rewrite IH by (auto; lia). lia.
Qed.

Lemma sum_amounts_app (l1 l2 : list ClaimRecord) :
  sum_amounts (l1 ++ l2) = sum_amounts l1 + sum_amounts l2.
Proof.
  induction l1 as [|c l1 IH]; cbn; [reflexivity|]. rewrite IH. lia.
Qed.

(** X1. In every snapshot the three counters are ordered: the potential
    frauds are among the verified claims, and the verified claims among
    all claims. *)
Theorem getFraudStats_counters_ordered :
  forall (clock : nat -> Z) (snapshot : list ClaimRecord),
    (potentialFrauds (getFraudStats clock snapshot)
     <= verifiedClaims (getFraudStats clock snapshot))%nat
    /\ (verifiedClaims (getFraudStats clock snapshot)
        <= totalClaims (getFraudStats clock snapshot))%nat.
Proof.
  intros clock snapshot. unfold getFraudStats. cbn. split.
  - apply filter_length_mono. intros c H. unfold is_potential_fraud in H.
    apply andb_true_iff in H as [H _]. now apply andb_true_iff in H as [H _].
  - apply filter_length_le.
Qed.

(** X2. When the public amounts are not negative and add up to at most
    [2^53], [totalAmount] is their sum, whether the claims are verified or
    not: neither [isVerified] nor [decryptedValue] takes part in it, and
    the totals of two snapshots put together add up. *)
Theorem getFraudStats_totalAmount_sums_public_amounts :
  forall (clock clock' : nat -> Z) (l1 l2 : list ClaimRecord),
    Forall (fun c => 0 <= claimAmount c) (l1 ++ l2) ->
    sum_amounts (l1 ++ l2) <= 2 ^ 53 ->
    totalAmount (getFraudStats clock (l1 ++ l2)) = sum_amounts (l1 ++ l2)
    /\ totalAmount (getFraudStats clock (l1 ++ l2))
       = totalAmount (getFraudStats clock l1)
         + totalAmount (getFraudStats clock' l2).
Proof.
  intros clock clock' l1 l2 Hpos Hsum. unfold getFraudStats. cbn.
  apply Forall_app in Hpos as [H1 H2].
  pose proof (sum_amounts_nonneg l1 H1) as N1.
  pose proof (sum_amounts_nonneg l2 H2) as N2.
  rewrite sum_amounts_app in Hsum.
  rewrite !fold_amounts_exact;
    rewrite ?sum_amounts_app; try apply Forall_app; auto; lia.
Qed.

(** ** Further properties of the refresh *)

Section Refresh.

Context {S : Type}.
Variable handle : forall T : Type, Call T -> S -> (Error + T) * S.
Variable clock : S -> Z.

Lemma same_but_console_refl (u : UiState) : same_but_console u u.
Proof. unfold same_but_console. auto 10. Qed.

(** The loop of [loadClaims] reads the record of every identifier once,
    in order, appends the claims it could build, in order, and touches
    nothing of the state but the console. *)
Lemma load_each_outcome (businessIds : list string) :
  forall (acc : list ClaimRecord) (w : World),
  exists l w',
    run handle clock (load_each businessIds acc) w = (inr (acc ++ l)%list, w')
    /\ trace w' = (trace w ++ record_reads businessIds)%list
    /\ subseq (map id l) businessIds
    /\ same_but_console (ui w) (ui w').
Proof.
  induction businessIds as [|b rest IH]; intros acc w.
  - exists [], w. cbn. rewrite !app_nil_r.
    repeat split; try constructor; reflexivity.
  - cbn [load_each]. rewrite run_bind, run_try_catch, run_bind. cbn.
    destruct (handle _ (GetBusinessData b) (ext w)) as [[e|bd] s]; cbn.
    + match goal with |- context [run handle clock (load_each rest acc) ?w0] =>
        destruct (IH acc w0) as (l & w' & Hrun & Htr & Hsub & Hui)
      end.
      exists l, w'. rewrite Hrun, Htr. cbn. rewrite <- app_assoc.
      repeat split; try apply Hui. now constructor.
    + rewrite run_bind.
      destruct (claim_of b bd) as [c|e|T c k|k|u k] eqn:Hc;
        try (unfold claim_of in Hc;
             destruct (Js.iso_date _) in Hc; discriminate).
      * cbn.
        match goal with |- context [run handle clock (load_each rest ?a) ?w0] =>
          destruct (IH a w0) as (l & w' & Hrun & Htr & Hsub & Hui)
        end.
        exists (c :: l), w'. rewrite Hrun, Htr. cbn. rewrite <- !app_assoc.
        repeat split; try apply Hui.
        unfold claim_of in Hc. destruct (Js.iso_date _); [|discriminate].
        injection Hc as <-. cbn. now constructor.
      * cbn.
        match goal with |- context [run handle clock (load_each rest acc) ?w0] =>
          destruct (IH acc w0) as (l & w' & Hrun & Htr & Hsub & Hui)
        end.
        exists l, w'. rewrite Hrun, Htr. cbn. rewrite <- app_assoc.
        repeat split; try apply Hui. now constructor.
Qed.

(** The claims the loop appends are those of the identifiers whose record
    was answered with a valid timestamp. *)
Lemma load_each_ids (businessIds : list string) :
  forall (acc : list ClaimRecord) (w : World),
  exists l w',
    run handle clock (load_each businessIds acc) w = (inr (acc ++ l)%list, w')
    /\ map id l
       = map fst (filter loadable (read_all handle businessIds (ext w))).
Proof.
  induction businessIds as [|b rest IH]; intros acc w.
  - exists [], w. cbn. rewrite app_nil_r. auto.
  - cbn [load_each read_all]. rewrite run_bind, run_try_catch, run_bind. cbn.
    destruct (handle _ (GetBusinessData b) (ext w)) as [[e|bd] s]; cbn.
    + match goal with |- context [run handle clock (load_each rest acc) ?w0] =>
        destruct (IH acc w0) as (l & w' & Hrun & Hids)
      end.
      exists l, w'. rewrite Hrun. split; [reflexivity|exact Hids].
    + rewrite run_bind. unfold claim_of, Js.iso_date, loadable. cbn [snd].
      destruct (Z.abs (Js.Number (bd_timestamp bd) * 1000) <=? Js.max_time).
      * destruct (Js.civil_from_days _) as [[y m] d]. cbn.
        match goal with |- context [run handle clock (load_each rest ?a) ?w0] =>
          destruct (IH a w0) as (l & w' & Hrun & Hids)
        end.
        eexists (_ :: l), w'. rewrite Hrun, <- app_assoc. cbn.
        split; [reflexivity|]. now rewrite Hids.
      * cbn.
        match goal with |- context [run handle clock (load_each rest acc) ?w0] =>
          destruct (IH acc w0) as (l & w' & Hrun & Hids)
        end.
        exists l, w'. rewrite Hrun. split; [reflexivity|exact Hids].
Qed.

(** [loadClaims] leaves alone the parts of the state that belong to the
    creation of a claim. *)
Lemma loadClaims_frame (r : Render) (w : World) :
  exists w' tr,
    run handle clock (loadClaims r) w = (inr tt, w')
    /\ trace w' = (trace w ++ tr)%list
    /\ forallb is_read tr = true
    /\ creatingClaim (ui w') = creatingClaim (ui w)
    /\ showCreateModal (ui w') = showCreateModal (ui w)
    /\ formData (ui w') = formData (ui w)
    /\ (isConnected r = true -> isRefreshing (ui w') = false).
Proof.
  unfold loadClaims. destruct (isConnected r); cbn.
  2:{ exists w, []. rewrite app_nil_r. repeat split; auto. discriminate. }
  destruct (handle _ GetContractReadOnly (ext w)) as [[e|[|]] s]; cbn.
  - eexists _, [_]. repeat split; auto.
  - destruct (handle _ GetAllBusinessIds s) as [[e|ids] s1]; cbn.
    + eexists _, [_; _]. rewrite <- app_assoc. repeat split; auto.
    + rewrite run_bind, !run_try_catch, run_bind.
      match goal with |- context [run handle clock (load_each ids []) ?w0] =>
        destruct (load_each_run handle clock ids [] w0)
          as (l0 & w0' & tr0 & Hrun0 & Htr0 & Hrd0 & _);
        destruct (load_each_outcome ids [] w0)
          as (l & w' & Hrun & Htr & Hsub & Hui)
      end.
      rewrite Hrun. cbn. rewrite Hrun in Hrun0.
      injection Hrun0 as _ <-.
      destruct Hui as (_ & _ & Hcr & Hsh & _ & Hfd & _). cbn in *.
      eexists _, (_ :: _ :: tr0). cbn. rewrite Htr0. cbn.
      rewrite <- !app_assoc. repeat split; auto.
  - eexists _, [_]. repeat split; auto.
Qed.

(** X4. When the list of identifiers is obtained, a refresh reads the
    record of every identifier exactly once, in the order of the list,
    resolves and ends with [isRefreshing] false; the new repository holds,
    in the same order, one claim for each identifier whose record was
    answered with a valid timestamp, and none for the others. *)
Theorem loadClaims_reads_each_record_once :
  forall (r : Render) (w : World) (businessIds : list string) (s1 s2 : S),
    isConnected r = true ->
    handle _ GetContractReadOnly (ext w) = (inr true, s1) ->
    handle _ GetAllBusinessIds s1 = (inr businessIds, s2) ->
    exists w',
      run handle clock (loadClaims r) w = (inr tt, w')
      /\ trace w'
         = (trace w
            ++ [Called GetContractReadOnly; Called GetAllBusinessIds]
            ++ record_reads businessIds)%list
      /\ map id (claims (ui w'))
         = map fst (filter loadable (read_all handle businessIds s2))
      /\ subseq (map id (claims (ui w'))) businessIds
      /\ isRefreshing (ui w') = false
      /\ transactionStatus (ui w') = transactionStatus (ui w)
      /\ timers (ui w') = timers (ui w).
Proof.
  intros r w ids s1 s2 Hc Hro Hids.
  unfold loadClaims. rewrite Hc. cbn. rewrite Hro. cbn. rewrite Hids. cbn.
  rewrite run_bind, !run_try_catch, run_bind.
  match goal with |- context [run handle clock (load_each ids []) ?w0] =>
    destruct (load_each_outcome ids [] w0)
      as (l & w' & Hrun & Htr & Hsub & Hui);
    destruct (load_each_ids ids [] w0) as (l' & w'' & Hrun' & Hl')
  end.
  rewrite Hrun in Hrun'. injection Hrun' as <- _.
  rewrite Hrun. cbn in *.
  destruct Hui as (_ & _ & _ & _ & Hst & _ & Htm). cbn in *.
  eexists. split; [reflexivity|]. cbn. rewrite Htr, <- !app_assoc.
  repeat split; auto.
Qed.

(** X5. When the list of identifiers cannot be obtained, a refresh keeps
    the claims it had, shows the error "Failed to load claims", arms the
    3000 ms timer that hides it, and ends with [isRefreshing] false
    without throwing. *)
Theorem loadClaims_failure_keeps_snapshot :
  forall (r : Render) (w : World) (e : Error) (s1 s2 : S),
    isConnected r = true ->
    handle _ GetContractReadOnly (ext w) = (inr true, s1) ->
    handle _ GetAllBusinessIds s1 = (inl e, s2) ->
    exists w',
      run handle clock (loadClaims r) w = (inr tt, w')
      /\ claims (ui w') = claims (ui w)
      /\ transactionStatus (ui w')
         = TransactionStatus.mk true error "Failed to load claims"
      /\ timers (ui w')
         = (timers (ui w) ++ [(TransactionStatus.hidden, 3000)])%list
      /\ isRefreshing (ui w') = false.
Proof.
  intros r w e s1 s2 Hc Hro Hids.
  unfold loadClaims. rewrite Hc. cbn. rewrite Hro. cbn. rewrite Hids. cbn.
  eexists. repeat split.
Qed.

(** X6. When no read-only contract is at hand, a refresh gives up
    silently: the claims, the status and the timers are what they were,
    no further call is made, and [isRefreshing] is false again. *)
Theorem loadClaims_without_contract_is_silent :
  forall (r : Render) (w : World) (s1 : S),
    isConnected r = true ->
    handle _ GetContractReadOnly (ext w) = (inr false, s1) ->
    exists w',
      run handle clock (loadClaims r) w = (inr tt, w')
      /\ trace w' = (trace w ++ [Called GetContractReadOnly])%list
      /\ claims (ui w') = claims (ui w)
      /\ transactionStatus (ui w') = transactionStatus (ui w)
      /\ timers (ui w') = timers (ui w)
      /\ isRefreshing (ui w') = false.
Proof.
  intros r w s1 Hc Hro.
  unfold loadClaims. rewrite Hc. cbn. rewrite Hro. cbn.
  eexists. repeat split.
Qed.

Lemma load_each_unreadable (businessIds : list string) :
  (forall b s, exists e s', handle _ (GetBusinessData b) s = (inl e, s')) ->
  forall w : World,
  exists w',
    run handle clock (load_each businessIds []) w = (inr [], w')
    /\ same_but_console (ui w) (ui w')
    /\ List.length (console (ui w'))
       = (List.length (console (ui w)) + List.length businessIds)%nat.
Proof.
  intros Hbad. induction businessIds as [|b rest IH]; intros w.
  - exists w. cbn. repeat split; auto.
  - cbn [load_each]. rewrite run_bind, run_try_catch, run_bind. cbn.
    destruct (Hbad b (ext w)) as (e & s' & He). rewrite He. cbn.
    match goal with |- context [run handle clock (load_each rest []) ?w1] =>
      destruct (IH w1) as (w' & Hrun & Hui & Hco)
    end.
    exists w'. rewrite Hrun. cbn in *.
    rewrite Hco, length_app. cbn. repeat split; try apply Hui. lia.
Qed.

(** X7. When the identifiers are listed but no record can be read, a
    refresh replaces the repository by the empty list and reports no
    error in the status: each failure only goes to the console. *)
Theorem loadClaims_unreadable_records_empty_repository :
  forall (r : Render) (w : World) (businessIds : list string) (s1 s2 : S),
    isConnected r = true ->
    handle _ GetContractReadOnly (ext w) = (inr true, s1) ->
    handle _ GetAllBusinessIds s1 = (inr businessIds, s2) ->
    (forall b s, exists e s', handle _ (GetBusinessData b) s = (inl e, s')) ->
    exists w',
      run handle clock (loadClaims r) w = (inr tt, w')
      /\ claims (ui w') = []
      /\ transactionStatus (ui w') = transactionStatus (ui w)
      /\ List.length (console (ui w'))
         = (List.length (console (ui w)) + List.length businessIds)%nat.
Proof.
  intros r w ids s1 s2 Hc Hro Hids Hbad.
  unfold loadClaims. rewrite Hc. cbn. rewrite Hro. cbn. rewrite Hids. cbn.
  rewrite run_bind, !run_try_catch, run_bind.
  match goal with |- context [run handle clock (load_each ids []) ?w0] =>
    destruct (load_each_unreadable ids Hbad w0) as (w' & Hrun & Hui & Hco)
  end.
  rewrite Hrun. cbn in *.
  destruct Hui as (_ & _ & _ & _ & Hst & _ & _). cbn in *.
  eexists. repeat split; auto.
Qed.

(** X8. A refresh keeps the repository well formed: the status word of
    every claim is "Verified" or "Pending" according to [isVerified], the
    encrypted amount shown is the identifier, and the timestamp is a valid
    date. *)
Theorem loadClaims_keeps_claims_well_formed :
  forall (r : Render) (w : World),
    Forall well_formed (claims (ui w)) ->
    Forall well_formed
      (claims (ui (snd (run handle clock (loadClaims r) w)))).
Proof.
  intros r w H.
  destruct (loadClaims_run handle clock r w) as (w' & tr & Hrun & _ & _ & HP).
  rewrite Hrun. cbn. apply HP; [|exact H].
  intros b bd c Hc. unfold claim_of in Hc.
  destruct (Js.iso_date _) eqn:E; [|discriminate].
  injection Hc as <-. unfold well_formed. cbn. repeat split.
  unfold Js.iso_date in E.
  destruct (Z.abs (Js.Number (bd_timestamp bd) * 1000) <=? Js.max_time) eqn:L;
    [|discriminate].
  now apply Z.leb_le in L.
Qed.

End Refresh.

(** ** Further properties of the creation of a claim *)

Section Creation.

Context {S : Type}.
Variable handle : forall T : Type, Call T -> S -> (Error + T) * S.
Variable clock : S -> Z.

Ltac refresh r :=
  repeat (rewrite run_bind || rewrite run_try_catch);
  match goal with
  | |- context [run handle clock (loadClaims r) ?w0] =>
      let w' := fresh "w'" in
      let tr := fresh "tr" in
      destruct (loadClaims_frame handle clock r w0)
        as (w' & tr & Hrun & Htr & Hrd & Hcr & Hsh & Hfd & _);
      cbn in Htr, Hcr, Hsh, Hfd; rewrite Hrun; cbn
  end.

(** X9. With a connected wallet, when [createClaim] is done, resolved or
    rejected, [creatingClaim] is false again, whatever the contract, the
    gateway and the refresh answered. *)
Theorem createClaim_always_clears_creating :
  forall (r : Render) (w : World),
    isConnected r = true ->
    has_address r = true ->
    creatingClaim (ui (snd (run handle clock (createClaim r) w))) = false.
Proof.
  intros r w Hc Ha. unfold createClaim. rewrite Hc, Ha. cbn.
  answer handle; try refresh r; reflexivity.
Qed.

(** X10. One call of [createClaim] sends at most one transaction to the
    ledger; for an amount that is a safe integer it is a
    [createBusinessData] that carries the identifier made from the clock,
    the policy number as name, the provider as description, the
    ciphertext and the proof the gateway returned for the parsed amount,
    that amount in clear as first public value and 0 as second one. *)
Theorem createClaim_at_most_one_write :
  forall (r : Render) (w : World),
    Z.abs (amount_of r) < 2 ^ 53 ->
    exists tr,
      trace (snd (run handle clock (createClaim r) w))
      = (trace w ++ tr)%list
      /\ (filter is_write tr = []
          \/ exists s1 enc s2,
               handle _ GetContractWithSigner (ext w) = (inr true, s1)
               /\ handle _ (Encrypt (contractAddress r) (address_of r)
                              (amount_of r)) s1
                  = (inr enc, s2)
               /\ filter is_write tr
                  = [Called (CreateBusinessData (newBusinessId (clock s1))
                               (NewClaimData.policyNumber (newClaimData r))
                               (encryptedData enc) (proof enc)
                               (amount_of r) 0
                               (NewClaimData.provider (newClaimData r)))]).
Proof.
  intros r w _. unfold createClaim.
  destruct (negb (isConnected r) || negb (has_address r)); cbn.
  { exists []. rewrite app_nil_r. cbn. auto. }
  answer handle; try refresh r;
    eexists; cbn; rewrite ?Htr;
    (split; [rewrite <- ?app_assoc; cbn; reflexivity|]); cbn;
    rewrite ?reads_are_not_writes by assumption;
    first [ left; reflexivity
          | right; eexists _, _, _;
            split; [reflexivity|]; split; [eassumption|]; reflexivity ].
Qed.

(** X11. When the ledger or the wallet rejects the submission with a
    value whose [message] is a string or is absent, nothing is awaited or
    reloaded after it; the claims, the form and the modal are what they
    were, and the status shows "Transaction rejected by user" if the
    message contains "user rejected transaction", and "Submission failed: "
    followed by the message, or by "Unknown error" for want of one,
    otherwise. *)
Theorem createClaim_submission_rejected :
  forall (r : Render) (w : World) (enc : EncryptedResult)
         (m : option string) (s1 s2 s3 : S),
    isConnected r = true ->
    has_address r = true ->
    handle _ GetContractWithSigner (ext w) = (inr true, s1) ->
    handle _ (Encrypt (contractAddress r) (address_of r) (amount_of r)) s1
    = (inr enc, s2) ->
    handle _ (CreateBusinessData (newBusinessId (clock s1))
                (NewClaimData.policyNumber (newClaimData r))
                (encryptedData enc) (proof enc) (amount_of r) 0
                (NewClaimData.provider (newClaimData r))) s2
    = (inl (mkError m), s3) ->
    exists w',
      run handle clock (createClaim r) w = (inr tt, w')
      /\ List.length (trace w') = (List.length (trace w) + 3)%nat
      /\ ext w' = s3
      /\ claims (ui w') = claims (ui w)
      /\ formData (ui w') = formData (ui w)
      /\ showCreateModal (ui w') = showCreateModal (ui w)
      /\ creatingClaim (ui w') = false
      /\ transactionStatus (ui w')
         = TransactionStatus.mk true error
             (match m with
              | Some text =>
                  if Js.includes text "user rejected transaction"
                  then "Transaction rejected by user"
                  else "Submission failed: " ++ shown_message m
              | None => "Submission failed: Unknown error"
              end).
Proof.
  intros r w enc m s1 s2 s3 Hc Ha Hsg Henc Hsub.
  unfold createClaim. rewrite Hc, Ha. cbn.
  unfold amount_of, newBusinessId in *. cbn in Hsub.
  rewrite Hsg. cbn. rewrite Henc. cbn. rewrite Hsub. cbn.
  destruct m as [text|]; cbn;
    try (destruct (Js.includes text "user rejected transaction"); cbn);
    (eexists; split; [reflexivity|]); cbn;
    rewrite !length_app; cbn; repeat split; lia.
Qed.

(** X12. Once the transaction is confirmed, [createClaim] closes the
    modal, empties the form and clears [creatingClaim], whether the
    refresh that follows succeeds or not; exactly one transaction was
    sent. *)
Theorem createClaim_confirmed_resets_form :
  forall (r : Render) (w : World) (enc : EncryptedResult) (tx : Tx)
         (s1 s2 s3 s4 : S),
    isConnected r = true ->
    has_address r = true ->
    handle _ GetContractWithSigner (ext w) = (inr true, s1) ->
    handle _ (Encrypt (contractAddress r) (address_of r) (amount_of r)) s1
    = (inr enc, s2) ->
    handle _ (CreateBusinessData (newBusinessId (clock s1))
                (NewClaimData.policyNumber (newClaimData r))
                (encryptedData enc) (proof enc) (amount_of r) 0
                (NewClaimData.provider (newClaimData r))) s2
    = (inr tx, s3) ->
    handle _ (Wait tx) s3 = (inr tt, s4) ->
    exists w' tr,
      run handle clock (createClaim r) w = (inr tt, w')
      /\ trace w' = (trace w ++ tr)%list
      /\ List.length (filter is_write tr) = 1%nat
      /\ showCreateModal (ui w') = false
      /\ formData (ui w') = NewClaimData.empty
      /\ creatingClaim (ui w') = false.
Proof.
  intros r w enc tx s1 s2 s3 s4 Hc Ha Hsg Henc Hsub Hwait.
  unfold createClaim. rewrite Hc, Ha. cbn.
  unfold amount_of, newBusinessId in *. cbn in Hsub.
  rewrite Hsg. cbn. rewrite Henc. cbn. rewrite Hsub. cbn.
  rewrite Hwait. cbn. refresh r.
  eexists _, _. split; [reflexivity|]. cbn. rewrite Htr.
  split; [rewrite <- !app_assoc; cbn; reflexivity|]. cbn.
  rewrite (reads_are_not_writes _ Hrd). auto.
Qed.

End Creation.

(** ** Further properties of the decryption *)

Section Decryption.

Context {S : Type}.
Variable handle : forall T : Type, Call T -> S -> (Error + T) * S.
Variable clock : S -> Z.

(** X13. When every step of the protocol succeeds for an unverified
    claim, [decryptClaim] asks the gateway for the one handle of the
    claim, submits for that claim the clear values and the proof the
    gateway returned, awaits the transaction, reloads the claims, shows
    "Claim amount decrypted and verified!" and returns the clear value of
    the handle, or [NaN] if the gateway left it out. *)
Theorem decryptClaim_protocol_succeeds :
  forall (r : Render) (businessId : string) (w : World)
         (businessData : BusinessData) (h : Blob) (result : DecryptionResult)
         (tx : Tx) (s1 s2 s3 s4 s5 s6 s7 : S),
    isConnected r = true ->
    has_address r = true ->
    handle _ GetContractReadOnly (ext w) = (inr true, s1) ->
    handle _ (GetBusinessData businessId) s1 = (inr businessData, s2) ->
    bd_isVerified businessData = false ->
    handle _ GetContractWithSigner s2 = (inr true, s3) ->
    handle _ (GetEncryptedValue businessId) s3 = (inr h, s4) ->
    handle _ (RequestDecryption [h] (contractAddress r)) s4
    = (inr result, s5) ->
    handle _ (VerifyDecryption businessId (abiEncodedClearValues result)
                (decryptionProof result)) s5
    = (inr tx, s6) ->
    handle _ (Wait tx) s6 = (inr tt, s7) ->
    exists w' tr,
      run handle clock (decryptClaim r businessId) w
      = (inr (Number_of_clear (clear_value (clearValues result) h)), w')
      /\ trace w'
         = (trace w
            ++ [Called GetContractReadOnly;
                Called (GetBusinessData businessId);
                Called GetContractWithSigner;
                Called (GetEncryptedValue businessId);
                Called (RequestDecryption [h] (contractAddress r));
                Called (VerifyDecryption businessId
                          (abiEncodedClearValues result)
                          (decryptionProof result));
                Called (Wait tx)]
            ++ tr)%list
      /\ forallb is_read tr = true
      /\ transactionStatus (ui w')
         = TransactionStatus.mk true success
             "Claim amount decrypted and verified!".
Proof.
  intros r b w bd h res tx s1 s2 s3 s4 s5 s6 s7
    Hc Ha Hro Hbd Hv Hsg Hh Hreq Hver Hwait.
  unfold decryptClaim, verifyDecryption. rewrite Hc, Ha. cbn.
  rewrite Hro. cbn. rewrite Hbd. cbn. rewrite Hv. cbn.
  rewrite Hsg. cbn. rewrite Hh. cbn. rewrite Hreq. cbn.
  rewrite Hver. cbn. rewrite Hwait. cbn.
  rewrite run_try_catch, run_bind.
  match goal with
  | |- context [run handle clock (loadClaims r) ?w0] =>
      destruct (loadClaims_run handle clock r w0)
        as (w' & tr & Hrun & Htr & Hrd & _);
      cbn in Htr; rewrite Hrun; cbn
  end.
  eexists _, _. split; [reflexivity|]. cbn. rewrite Htr.
  split; [rewrite <- !app_assoc; cbn; reflexivity|]. auto.
Qed.

(** X14. When the gateway cannot decrypt and rejects with a value whose
    [message] is a string that does not contain "Data already verified",
    or is absent, [decryptClaim] sends nothing to the ledger, does not
    reload the claims, returns [null] and shows "Decryption failed: "
    followed by the message, or by "Unknown error" for want of one. *)
Theorem decryptClaim_gateway_fails :
  forall (r : Render) (businessId : string) (w : World)
         (businessData : BusinessData) (h : Blob) (m : option string)
         (s1 s2 s3 s4 s5 : S),
    isConnected r = true ->
    has_address r = true ->
    handle _ GetContractReadOnly (ext w) = (inr true, s1) ->
    handle _ (GetBusinessData businessId) s1 = (inr businessData, s2) ->
    bd_isVerified businessData = false ->
    handle _ GetContractWithSigner s2 = (inr true, s3) ->
    handle _ (GetEncryptedValue businessId) s3 = (inr h, s4) ->
    handle _ (RequestDecryption [h] (contractAddress r)) s4
    = (inl (mkError m), s5) ->
    (forall text, m = Some text ->
                  Js.includes text "Data already verified" = false) ->
    exists w' tr,
      run handle clock (decryptClaim r businessId) w = (inr Null, w')
      /\ trace w' = (trace w ++ tr)%list
      /\ filter is_write tr = []
      /\ ext w' = s5
      /\ claims (ui w') = claims (ui w)
      /\ transactionStatus (ui w')
         = TransactionStatus.mk true error
             ("Decryption failed: " ++ shown_message m).
Proof.
  intros r b w bd h m s1 s2 s3 s4 s5 Hc Ha Hro Hbd Hv Hsg Hh Hreq Hmsg.
  unfold decryptClaim, verifyDecryption. rewrite Hc, Ha. cbn.
  rewrite Hro. cbn. rewrite Hbd. cbn. rewrite Hv. cbn.
  rewrite Hsg. cbn. rewrite Hh. cbn. rewrite Hreq. cbn.
  destruct m as [text|]; cbn; [rewrite (Hmsg text eq_refl); cbn|]; conclude.
Qed.

(** X15. Without a connected wallet or without an address, neither
    [createClaim] nor [decryptClaim] makes any call: the outside world and
    the trace are untouched, the status shows "Please connect wallet
    first", and [decryptClaim] returns [null]. *)
Theorem no_wallet_no_call :
  forall (r : Render) (businessId : string) (w : World),
    isConnected r && has_address r = false ->
    (exists w',
       run handle clock (createClaim r) w = (inr tt, w')
       /\ ext w' = ext w /\ trace w' = trace w
       /\ creatingClaim (ui w') = creatingClaim (ui w)
       /\ transactionStatus (ui w')
          = TransactionStatus.mk true error "Please connect wallet first")
    /\ (exists w',
          run handle clock (decryptClaim r businessId) w = (inr Null, w')
          /\ ext w' = ext w /\ trace w' = trace w
          /\ transactionStatus (ui w')
             = TransactionStatus.mk true error "Please connect wallet first").
Proof.
  intros r b w H. unfold createClaim, decryptClaim.
  replace (negb (isConnected r) || negb (has_address r)) with true
    by (destruct (isConnected r), (has_address r); cbn in *; congruence).
  cbn. split; eexists; repeat split.
Qed.

(** X16. For a claim shown as verified [handleDecrypt] makes no call and
    changes nothing; and whenever it resolves, a value already decrypted
    locally has not been replaced by [null]. *)
Theorem handleDecrypt_keeps_local_value :
  forall (claim : ClaimRecord) (r : Render) (localDecrypted : Decrypted)
         (w : World),
    (isVerified claim = true ->
     run handle clock
       (handleDecrypt claim (decryptClaim r (id claim)) localDecrypted) w
     = (inr localDecrypted, w))
    /\ (forall v w',
          run handle clock
            (handleDecrypt claim (decryptClaim r (id claim)) localDecrypted) w
          = (inr v, w') ->
          localDecrypted <> Null -> v <> Null).
Proof.
  intros claim r loc w. unfold handleDecrypt. split.
  - intros ->. reflexivity.
  - intros v w'. destruct (isVerified claim).
    + cbn. intros [= <- _]. auto.
    + rewrite run_bind.
      destruct (run handle clock (decryptClaim r (id claim)) w)
        as [[e|res] w1]; [discriminate|].
      destruct res; cbn; intros [= <- _]; auto; discriminate.
Qed.

End Decryption.

(** ** Properties of the form and of the list filter *)

Lemma prefix_spec (t : string) :
  forall s, prefix t s = true <-> exists b, s = t ++ b.
Proof.
  induction t as [|c t IH]; intros s; cbn.
  - destruct s; split; intros; try reflexivity; eexists; reflexivity.
  - destruct s as [|d s]; cbn.
    + split; [discriminate|]. intros [b H]. discriminate.
    + destruct (ascii_dec c d) as [->|Hne].
      * rewrite IH. split; intros [b H]; exists b.
        -- now rewrite H.
        -- now injection H.
      * split; [discriminate|]. intros [b H]. injection H as H _.
        now subst.
Qed.

Lemma includes_empty (s : string) : Js.includes s "" = true.
Proof. destruct s; reflexivity. Qed.

Lemma is_digit_cases (c : ascii) :
  JsString.is_digit c = true ->
  In c ["0"; "1"; "2"; "3"; "4"; "5"; "6"; "7"; "8"; "9"]%char.
Proof.
  destruct c as [[|] [|] [|] [|] [|] [|] [|] [|]];
    intros H; try discriminate H; cbn; auto 12.
Qed.

Lemma digits_from_some (s : string) :
  forall a, 0 <= a -> exists n, 0 <= n /\ Js.digits 10 (Some a) s = Some n.
Proof.
  induction s as [|c s IH]; intros a Ha; cbn.
  - exists a. auto.
  - destruct (Js.digit_val 10 c) as [d|] eqn:E.
    + apply IH. unfold Js.digit_val in E.
      set (n := Z.of_nat (nat_of_ascii c)) in *.
      destruct ((48 <=? n) && (n <=? 57)) eqn:E1.
      * apply andb_true_iff in E1 as [L _]. apply Z.leb_le in L.
        destruct (n - 48 <? 10); [|discriminate]. injection E as <-. lia.
      * destruct ((97 <=? n) && (n <=? 122)) eqn:E2.
        -- apply andb_true_iff in E2 as [L _]. apply Z.leb_le in L.
           destruct (n - 87 <? 10); [|discriminate]. injection E as <-. lia.
        -- destruct ((65 <=? n) && (n <=? 90)) eqn:E3; [|discriminate].
           apply andb_true_iff in E3 as [L _]. apply Z.leb_le in L.
           destruct (n - 55 <? 10); [|discriminate]. injection E as <-. lia.
    + exists a. auto.
Qed.

Lemma is_digit_value (c : ascii) :
  JsString.is_digit c = true -> 0 <= Z.of_nat (nat_of_ascii c) - 48.
Proof.
  unfold JsString.is_digit. intros H.
  apply andb_true_iff in H as [H _]. apply Nat.leb_le in H. lia.
Qed.

Lemma parseInt_one_digit (c : ascii) :
  JsString.is_digit c = true ->
  Js.parseInt (String c "") = Some (Z.of_nat (nat_of_ascii c) - 48).
Proof.
  intros Hc. apply is_digit_cases in Hc. cbn [In] in Hc.
  repeat (destruct Hc as [<-|Hc]; [reflexivity|]). contradiction.
Qed.

Lemma parseInt_two_digits (c d : ascii) (s : string) :
  JsString.is_digit c = true ->
  JsString.is_digit d = true ->
  Js.parseInt (String c (String d s))
  = option_map (fun n => 1 * Js.round64 n)
      (Js.digits 10
         (Some ((Z.of_nat (nat_of_ascii c) - 48) * 10
                + (Z.of_nat (nat_of_ascii d) - 48))) s).
Proof.
  intros Hc Hd. apply is_digit_cases in Hc. apply is_digit_cases in Hd.
  cbn [In] in Hc, Hd.
  repeat (destruct Hc as [<-|Hc];
          [repeat (destruct Hd as [<-|Hd]; [reflexivity|]); contradiction|]).
  contradiction.
Qed.

(** A non-empty string of digits is never read as [NaN] by [parseInt]. *)
Lemma parseInt_digits (s : string) :
  all_digits s = true -> s <> "" -> Js.parseInt s <> None.
Proof.
  destruct s as [|c s]; [congruence|]. intros H _.
  unfold all_digits in H. cbn in H. apply andb_true_iff in H as [Hc Hs].
  pose proof (is_digit_value c Hc) as Vc.
  destruct s as [|d s'].
  - rewrite (parseInt_one_digit c Hc). discriminate.
  - cbn in Hs. apply andb_true_iff in Hs as [Hd _].
    pose proof (is_digit_value d Hd) as Vd.
    rewrite (parseInt_two_digits c d s' Hc Hd).
    match goal with |- context [Js.digits 10 (Some ?k) s'] =>
      destruct (digits_from_some s' k ltac:(lia)) as (n & _ & E)
    end.
    rewrite E. discriminate.
Qed.

Lemma strip_non_digits_all_digits (v : string) :
  all_digits (JsString.strip_non_digits v) = true.
Proof.
  unfold all_digits. induction v as [|c v IH]; [reflexivity|]. cbn.
  destruct (JsString.is_digit c) eqn:E; [|exact IH]. cbn. now rewrite E.
Qed.

Lemma strip_non_digits_fixed (v : string) :
  all_digits v = true -> JsString.strip_non_digits v = v.
Proof.
  unfold all_digits. induction v as [|c v IH]; [reflexivity|]. cbn.
  intros H. apply andb_true_iff in H as [Hc Hv]. rewrite Hc.
  now rewrite IH.
Qed.

Lemma includes_spec (s t : string) :
  Js.includes s t = true <-> exists a b, s = a ++ t ++ b.
Proof.
  split.
  - induction s as [|c s IH]; cbn [Js.includes].
    + destruct (prefix t "") eqn:E; [|discriminate].
      intros _. apply prefix_spec in E as [b E]. exists "", b. exact E.
    + destruct (prefix t (String c s)) eqn:E.
      * intros _. apply prefix_spec in E as [b E]. exists "", b. exact E.
      * intros H. destruct (IH H) as (a & b & ->).
        exists (String c a), b. reflexivity.
  - intros (a & b & ->). induction a as [|c a IH].
    + cbn [append].
      assert (E : prefix t (t ++ b) = true)
        by (apply prefix_spec; now exists b).
      destruct (t ++ b); cbn [Js.includes]; now rewrite E.
    + cbn [append Js.includes].
      destruct (prefix t (String c (a ++ t ++ b))); [reflexivity|].
      exact IH.
Qed.

(** X17. The amount that goes through [handleChange] is made of digits
    only, so that whenever the submit button is enabled the amount
    [createClaim] reads is not empty and [parseInt] does not make [NaN]
    of it: the fallback to 0 for an unparseable amount cannot be reached
    from the form. *)
Theorem form_amount_always_parses :
  forall (claimData : NewClaimData.t) (value : string)
         (creating isEncrypting : bool),
    submit_disabled creating isEncrypting
      (handleChange claimData "claimAmount" value) = false ->
    NewClaimData.claimAmount (handleChange claimData "claimAmount" value)
    <> ""
    /\ Js.parseInt
         (NewClaimData.claimAmount
            (handleChange claimData "claimAmount" value))
       <> None.
Proof.
  intros d v creating enc H.
  unfold submit_disabled in H. unfold handleChange, with_field in *.
  cbn in *.
  apply orb_false_iff in H as [H _]. apply orb_false_iff in H as [_ H].
  apply negb_false_iff in H.
  assert (Hne : JsString.strip_non_digits v <> "")
    by (intros E; rewrite E in H; discriminate).
  split; [exact Hne|].
  apply parseInt_digits; [apply strip_non_digits_all_digits|exact Hne].
Qed.

Lemma strip_non_digits_filter (v : string) :
  list_ascii_of_string (JsString.strip_non_digits v)
  = filter JsString.is_digit (list_ascii_of_string v).
Proof.
  induction v as [|c v IH]; [reflexivity|]. cbn.
  destruct (JsString.is_digit c); cbn; now rewrite IH.
Qed.

(** X18. For the amount field [handleChange] stores the digits of what
    was typed, in the order they were typed, and drops every other
    character; the other fields of the form are not touched, and handing
    the stored amount to [handleChange] again changes nothing. *)
Theorem handleChange_amount_keeps_digits :
  forall (claimData : NewClaimData.t) (value : string),
    let d := handleChange claimData "claimAmount" value in
    list_ascii_of_string (NewClaimData.claimAmount d)
    = filter JsString.is_digit (list_ascii_of_string value)
    /\ NewClaimData.policyNumber d = NewClaimData.policyNumber claimData
    /\ NewClaimData.provider d = NewClaimData.provider claimData
    /\ NewClaimData.claimDate d = NewClaimData.claimDate claimData
    /\ handleChange d "claimAmount" (NewClaimData.claimAmount d) = d.
Proof.
  intros d v. unfold handleChange, with_field. cbn.
  pose proof (strip_non_digits_all_digits v) as H.
  repeat split; [apply strip_non_digits_filter|].
  now rewrite (strip_non_digits_fixed _ H).
Qed.

Lemma matches_status (c : ClaimRecord) :
  well_formed c ->
  matches "" "verified" c = isVerified c
  /\ matches "" "pending" c = negb (isVerified c)
  /\ matches "" "all" c = true.
Proof.
  intros (Hst & _). unfold matches. rewrite Hst. cbn [JsString.toLowerCase].
  rewrite !includes_empty. destruct (isVerified c); repeat split.
Qed.

(** X19. On a well-formed repository and with an empty search box, the
    three filter buttons split the list: "verified" shows exactly the
    verified claims, "pending" exactly the others, "all" every claim, in
    the order of the repository. *)
Theorem filteredClaims_by_status :
  forall claims : list ClaimRecord,
    Forall well_formed claims ->
    filteredClaims claims "" "verified" = filter isVerified claims
    /\ filteredClaims claims "" "pending"
       = filter (fun c => negb (isVerified c)) claims
    /\ filteredClaims claims "" "all" = claims.
Proof.
  intros claims H. unfold filteredClaims.
  induction H as [|c l Hc Hl (IH1 & IH2 & IH3)]; [repeat split|].
  destruct (matches_status c Hc) as (E1 & E2 & E3).
  cbn [filter]. rewrite E1, E2, E3, IH1, IH2, IH3. repeat split.
Qed.

(** X20. With the filter on "all", a claim is listed exactly when the
    search term, in lower case, occurs somewhere in its policy number or
    in its provider, in lower case. *)
Theorem filteredClaims_search_is_substring :
  forall (searchTerm : string) (claim : ClaimRecord),
    matches searchTerm "all" claim = true
    <-> (exists a b,
           JsString.toLowerCase (policyNumber claim)
           = a ++ JsString.toLowerCase searchTerm ++ b)
        \/ (exists a b,
              JsString.toLowerCase (provider claim)
              = a ++ JsString.toLowerCase searchTerm ++ b).
Proof.
  intros t c. unfold matches. cbn [String.eqb Ascii.eqb Bool.eqb orb].
  rewrite andb_true_r, orb_true_iff, !includes_spec. reflexivity.
Qed.

(** ** The further scenarios, run *)

Import Cases.

Lemma loadClaims_reads_each_record_once_witness :
  exists w',
    run Chain.handle Chain.clock (loadClaims alice)
      (Chain.session (ext created)) = (inr tt, w')
    /\ trace w'
       = (trace (Chain.session (ext created))
          ++ [Called GetContractReadOnly; Called GetAllBusinessIds]
          ++ record_reads [claimId])%list
    /\ map id (claims (ui w'))
       = map fst (filter loadable
                    (read_all Chain.handle [claimId] (ext created)))
    /\ subseq (map id (claims (ui w'))) [claimId]
    /\ isRefreshing (ui w') = false
    /\ transactionStatus (ui w')
       = transactionStatus (ui (Chain.session (ext created)))
    /\ timers (ui w') = timers (ui (Chain.session (ext created))).
Proof.
  apply (loadClaims_reads_each_record_once Chain.handle Chain.clock alice
           (Chain.session (ext created)) [claimId]
           (ext created) (ext created));
    vm_compute; reflexivity.
Defined.

Lemma loadClaims_failure_keeps_snapshot_witness :
  exists w',
    run unlistable Chain.clock (loadClaims alice) created = (inr tt, w')
    /\ claims (ui w') = claims (ui created)
    /\ transactionStatus (ui w')
       = TransactionStatus.mk true error "Failed to load claims"
    /\ timers (ui w')
       = (timers (ui created) ++ [(TransactionStatus.hidden, 3000)])%list
    /\ isRefreshing (ui w') = false.
Proof.
  apply (loadClaims_failure_keeps_snapshot unlistable Chain.clock alice
           created (mkError (Some "could not detect network"))
           (ext created) (ext created));
    vm_compute; reflexivity.
Defined.

Lemma loadClaims_without_contract_is_silent_witness :
  exists w',
    run Chain.handle Chain.clock (loadClaims alice)
      (mkWorld provider_down (ui created) []) = (inr tt, w')
    /\ trace w'
       = (trace (mkWorld provider_down (ui created) [])
          ++ [Called GetContractReadOnly])%list
    /\ claims (ui w') = claims (ui (mkWorld provider_down (ui created) []))
    /\ transactionStatus (ui w')
       = transactionStatus (ui (mkWorld provider_down (ui created) []))
    /\ timers (ui w') = timers (ui (mkWorld provider_down (ui created) []))
    /\ isRefreshing (ui w') = false.
Proof.
  apply (loadClaims_without_contract_is_silent Chain.handle Chain.clock alice
           (mkWorld provider_down (ui created) []) provider_down);
    vm_compute; reflexivity.
Defined.

Lemma loadClaims_unreadable_records_empty_repository_witness :
  exists w',
    run unreadable Chain.clock (loadClaims alice) created = (inr tt, w')
    /\ claims (ui w') = []
    /\ transactionStatus (ui w') = transactionStatus (ui created)
    /\ List.length (console (ui w'))
       = (List.length (console (ui created)) + List.length [claimId])%nat.
Proof.
  apply (loadClaims_unreadable_records_empty_repository unreadable
           Chain.clock alice created [claimId] (ext created) (ext created));
    try (vm_compute; reflexivity).
  intros b s. eexists _, _. reflexivity.
Defined.

Lemma loadClaims_keeps_claims_well_formed_witness :
  Forall well_formed
    (claims (ui (snd (run Chain.handle Chain.clock (loadClaims alice)
                        (Chain.session (ext created)))))).
Proof.
  apply (loadClaims_keeps_claims_well_formed Chain.handle Chain.clock alice
           (Chain.session (ext created))).
  cbn. constructor.
Defined.

Lemma createClaim_always_clears_creating_witness :
  creatingClaim
    (ui (snd (run encrypt_rejects_undefined Chain.clock (createClaim alice)
                (Chain.session Chain.genesis))))
  = false.
Proof.
  apply (createClaim_always_clears_creating encrypt_rejects_undefined
           Chain.clock alice (Chain.session Chain.genesis));
    reflexivity.
Defined.

Lemma createClaim_at_most_one_write_witness :
  exists tr,
    trace (snd (run Chain.handle Chain.clock (createClaim alice)
                  (Chain.session Chain.genesis)))
    = (trace (Chain.session Chain.genesis) ++ tr)%list
    /\ (filter is_write tr = []
        \/ exists s1 enc s2,
             Chain.handle _ GetContractWithSigner
               (ext (Chain.session Chain.genesis)) = (inr true, s1)
             /\ Chain.handle _
                  (Encrypt (contractAddress alice) (address_of alice)
                     (amount_of alice)) s1
                = (inr enc, s2)
             /\ filter is_write tr
                = [Called (CreateBusinessData
                             (newBusinessId (Chain.clock s1))
                             (NewClaimData.policyNumber (newClaimData alice))
                             (encryptedData enc) (proof enc)
                             (amount_of alice) 0
                             (NewClaimData.provider (newClaimData alice)))]).
Proof.
  apply (createClaim_at_most_one_write Chain.handle Chain.clock alice
           (Chain.session Chain.genesis)).
  vm_compute. reflexivity.
Defined.

Lemma createClaim_submission_rejected_witness :
  exists w',
    run Chain.handle Chain.clock (createClaim bob) (Chain.session bob_late)
    = (inr tt, w')
    /\ List.length (trace w')
       = (List.length (trace (Chain.session bob_late)) + 3)%nat
    /\ ext w' = bob_late
    /\ claims (ui w') = claims (ui (Chain.session bob_late))
    /\ formData (ui w') = formData (ui (Chain.session bob_late))
    /\ showCreateModal (ui w')
       = showCreateModal (ui (Chain.session bob_late))
    /\ creatingClaim (ui w') = false
    /\ transactionStatus (ui w')
       = TransactionStatus.mk true error
           "Submission failed: Business data already exists".
Proof.
  apply (createClaim_submission_rejected Chain.handle Chain.clock bob
           (Chain.session bob_late)
           (mkEncryptedResult (Opaque "ciphertext" 700)
              (Opaque "input-proof" 700))
           (Some "Business data already exists")
           bob_late bob_late bob_late);
    vm_compute; reflexivity.
Defined.

Lemma createClaim_confirmed_resets_form_witness :
  exists w' tr,
    run Chain.handle Chain.clock (createClaim alice)
      (Chain.session Chain.genesis) = (inr tt, w')
    /\ trace w' = (trace (Chain.session Chain.genesis) ++ tr)%list
    /\ List.length (filter is_write tr) = 1%nat
    /\ showCreateModal (ui w') = false
    /\ formData (ui w') = NewClaimData.empty
    /\ creatingClaim (ui w') = false.
Proof.
  apply (createClaim_confirmed_resets_form Chain.handle Chain.clock alice
           (Chain.session Chain.genesis)
           (mkEncryptedResult (Opaque "ciphertext" 15000)
              (Opaque "input-proof" 15000))
           0 Chain.genesis Chain.genesis (ext created) (ext created));
    vm_compute; reflexivity.
Defined.

Lemma decryptClaim_protocol_succeeds_witness :
  exists w' tr,
    run Chain.handle Chain.clock (decryptClaim alice claimId)
      (Chain.session (ext created))
    = (inr (Number_of_clear
              (clear_value [(Opaque "handle" 0, 15000)] (Opaque "handle" 0))),
       w')
    /\ trace w'
       = (trace (Chain.session (ext created))
          ++ [Called GetContractReadOnly;
              Called (GetBusinessData claimId);
              Called GetContractWithSigner;
              Called (GetEncryptedValue claimId);
              Called (RequestDecryption [Opaque "handle" 0] "0xC0FFEE");
              Called (VerifyDecryption claimId
                        (Opaque "clear-values" 15000)
                        (Opaque "decryption-proof" 15000));
              Called (Wait 1)]
          ++ tr)%list
    /\ forallb is_read tr = true
    /\ transactionStatus (ui w')
       = TransactionStatus.mk true success
           "Claim amount decrypted and verified!".
Proof.
  apply (decryptClaim_protocol_succeeds Chain.handle Chain.clock alice
           claimId (Chain.session (ext created))
           (mkBusinessData "POL-1" 15000 0 "Acme" "0xA11CE" 1700000000
              0 false)
           (Opaque "handle" 0)
           (mkDecryptionResult [(Opaque "handle" 0, 15000)]
              (Opaque "clear-values" 15000)
              (Opaque "decryption-proof" 15000))
           1 (ext created) (ext created) (ext created) (ext created)
           (ext created) (ext (snd decrypted)) (ext (snd decrypted)));
    vm_compute; reflexivity.
Defined.

Lemma decryptClaim_gateway_fails_witness :
  exists w' tr,
    run Chain.handle Chain.clock (decryptClaim alice claimId)
      (Chain.session gateway_lost) = (inr Null, w')
    /\ trace w' = (trace (Chain.session gateway_lost) ++ tr)%list
    /\ filter is_write tr = []
    /\ ext w' = gateway_lost
    /\ claims (ui w') = claims (ui (Chain.session gateway_lost))
    /\ transactionStatus (ui w')
       = TransactionStatus.mk true error
           "Decryption failed: Decryption failed".
Proof.
  apply (decryptClaim_gateway_fails Chain.handle Chain.clock alice claimId
           (Chain.session gateway_lost)
           (mkBusinessData "POL-1" 15000 0 "Acme" "0xA11CE" 1700000000
              0 false)
           (Opaque "handle" 0) (Some "Decryption failed")
           gateway_lost gateway_lost gateway_lost gateway_lost gateway_lost);
    try (vm_compute; reflexivity).
  intros text [= <-]. reflexivity.
Defined.

Lemma no_wallet_no_call_witness :
  (exists w',
     run Chain.handle Chain.clock (createClaim visitor)
       (Chain.session Chain.genesis) = (inr tt, w')
     /\ ext w' = ext (Chain.session Chain.genesis)
     /\ trace w' = trace (Chain.session Chain.genesis)
     /\ creatingClaim (ui w')
        = creatingClaim (ui (Chain.session Chain.genesis))
     /\ transactionStatus (ui w')
        = TransactionStatus.mk true error "Please connect wallet first")
  /\ (exists w',
        run Chain.handle Chain.clock (decryptClaim visitor claimId)
          (Chain.session Chain.genesis) = (inr Null, w')
        /\ ext w' = ext (Chain.session Chain.genesis)
        /\ trace w' = trace (Chain.session Chain.genesis)
        /\ transactionStatus (ui w')
           = TransactionStatus.mk true error "Please connect wallet first").
Proof.
  apply (no_wallet_no_call Chain.handle Chain.clock visitor claimId
           (Chain.session Chain.genesis)).
  reflexivity.
Defined.

Lemma form_amount_always_parses_witness :
  NewClaimData.claimAmount (handleChange draft "claimAmount" "1,500 USD")
  <> ""
  /\ Js.parseInt
       (NewClaimData.claimAmount
          (handleChange draft "claimAmount" "1,500 USD"))
     <> None.
Proof.
  apply (form_amount_always_parses draft "1,500 USD" false false).
  reflexivity.
Defined.

Lemma getFraudStats_totalAmount_sums_public_amounts_witness :
  totalAmount
    (getFraudStats (fun _ => 0) ([verified_claim] ++ [pending_claim]))
  = sum_amounts ([verified_claim] ++ [pending_claim])
  /\ totalAmount
       (getFraudStats (fun _ => 0) ([verified_claim] ++ [pending_claim]))
     = totalAmount (getFraudStats (fun _ => 0) [verified_claim])
       + totalAmount (getFraudStats (fun _ => 1) [pending_claim]).
Proof.
  apply (getFraudStats_totalAmount_sums_public_amounts
           (fun _ => 0) (fun _ => 1) [verified_claim] [pending_claim]).
  - repeat constructor; cbn; lia.
  - cbn. lia.
Defined.

Lemma filteredClaims_by_status_witness :
  filteredClaims [verified_claim; pending_claim] "" "verified"
  = filter isVerified [verified_claim; pending_claim]
  /\ filteredClaims [verified_claim; pending_claim] "" "pending"
     = filter (fun c => negb (isVerified c)) [verified_claim; pending_claim]
  /\ filteredClaims [verified_claim; pending_claim] "" "all"
     = [verified_claim; pending_claim].
Proof.
  apply (filteredClaims_by_status [verified_claim; pending_claim]).
  constructor; [|constructor; [|constructor]];
    unfold well_formed; cbn; repeat split; discriminate.
Defined.
